(** * Xlap: layout transition engine and multi-monitor geometry

    A shallow embedding of the core of [xlap.py] ([XlapCore] together with
    the layout tables it reads) and the properties of its transition state
    machine, its display lookup and its pixel geometry.

    - Python [int] is [Z]; Python [float] is IEEE-754 binary64, modelled
      by the Standard Library's [spec_float] at [prec = 53], [emax = 1024].
    - Python [dict]s are [gmap]s; [LAYOUT_SEQUENCE] is a [list].
    - External commands ([xdotool], [xrandr], [notify-send]) are events
      appended to a log; what they answer is read from an [Env]. *)

From Stdlib Require Import ZArith List Bool SpecFloat QArith Qround Lia.
From stdpp Require Import gmap strings list fin_maps.

Local Open Scope Z_scope.

(** ** Python exceptions and results *)

Inductive Exn : Type :=
| IndexError
| OverflowError
| ValueError.

Inductive Res (A : Type) : Type :=
| Ret (a : A)
| Raise (e : Exn).

Arguments Ret {A} a.
Arguments Raise {A} e.

(** ** Python floats (binary64) *)

Module PyFloat.

Definition prec : Z := 53.
Definition emax : Z := 1024.

Abbreviation float := spec_float.

(** [float(n)] for an [int]: correctly rounded (nearest, ties to even);
    an [int] too large for a double raises [OverflowError]. *)
Definition of_int (n : Z) : Res float :=
  match binary_normalize prec emax n 0 false with
  | S754_infinity _ => Raise OverflowError
  | f => Ret f
  end.

(** [a / b] on two small ints (both convert exactly and [b] is not
    zero, as in the table's [1 / 3] and [2 / 3]): one correctly rounded
    division. *)
Definition truediv (a b : Z) : Res float :=
  match of_int a, of_int b with
  | Ret x, Ret y => Ret (SFdiv prec emax x y)
  | Raise e, _ => Raise e
  | _, Raise e => Raise e
  end.

(** [n * f] with [n] an [int] and [f] a [float]: the int is converted
    first, then the product is rounded once. *)
Definition int_mul (n : Z) (f : float) : Res float :=
  match of_int n with
  | Ret x => Ret (SFmul prec emax x f)
  | Raise e => Raise e
  end.

(** [int(f)]: truncation toward zero. *)
Definition to_int (f : float) : Res Z :=
  match f with
  | S754_zero _ => Ret 0
  | S754_finite s m e =>
      let a := if (0 <=? e) then Z.pos m * 2 ^ e else Z.pos m / 2 ^ (- e) in
      Ret (if s then - a else a)
  | S754_infinity _ => Raise OverflowError
  | S754_nan => Raise ValueError
  end.

(** The float literals of the geometry table. *)
Definition lit_0_0 : float := S754_zero false.
Definition lit_0_5 : float := S754_finite false 4503599627370496 (-53).
Definition lit_1_0 : float := S754_finite false 4503599627370496 (-52).

(** [1 / 3] and [2 / 3], evaluated once when the module is loaded. *)
Definition one_third : float :=
  match truediv 1 3 with Ret f => f | Raise _ => S754_nan end.
Definition two_thirds : float :=
  match truediv 2 3 with Ret f => f | Raise _ => S754_nan end.

End PyFloat.

(** ** Layout names (class [Layouts]) *)

Module Layouts.
Local Open Scope string_scope.
Definition FULL_SCREEN := "Full Screen".
Definition MAXIMIZED := "Maximized".
Definition ALMOST_MAXIMIZED := "Almost Maximized".
Definition COL_50_LEFT := "50% Left".
Definition COL_50_RIGHT := "50% Right".
Definition COL_66_LEFT := "66% Left".
Definition COL_66_RIGHT := "66% Right".
Definition COL_33_LEFT := "33% Left".
Definition COL_33_CENTER := "33% Center".
Definition COL_33_RIGHT := "33% Right".
Definition ROW_50_TOP := "50% Top".
Definition ROW_50_BOTTOM := "50% Bottom".
Definition ROW_66_TOP := "66% Top".
Definition ROW_66_BOTTOM := "66% Bottom".
Definition ROW_33_TOP := "33% Top".
Definition ROW_33_CENTER := "33% Middle".
Definition ROW_33_BOTTOM := "33% Bottom".
Definition CELL_50_LEFT_TOP := "50% Top Left".
Definition CELL_50_LEFT_BOTTOM := "50% Bottom Left".
Definition CELL_50_RIGHT_TOP := "50% Top Right".
Definition CELL_50_RIGHT_BOTTOM := "50% Bottom Right".
Definition CELL_33_LEFT_TOP := "33% Top Left".
Definition CELL_33_LEFT_CENTER := "33% Middle Left".
Definition CELL_33_LEFT_BOTTOM := "33% Bottom Left".
Definition CELL_33_CENTER_TOP := "33% Top Center".
Definition CELL_33_CENTER_CENTER := "33% Middle Center".
Definition CELL_33_CENTER_BOTTOM := "33% Bottom Center".
Definition CELL_33_RIGHT_TOP := "33% Top Right".
Definition CELL_33_RIGHT_CENTER := "33% Middle Right".
Definition CELL_33_RIGHT_BOTTOM := "33% Bottom Right".
End Layouts.

Import Layouts.

(** ** The layout tables *)

(** A geometry entry: [(x_factor, y_factor, width_factor, height_factor)]. *)
Definition Geom : Type := (PyFloat.float * PyFloat.float * PyFloat.float * PyFloat.float)%type.

Definition LAYOUT_GEOMETRY_items : list (string * Geom) :=
  let z := PyFloat.lit_0_0 in
  let h := PyFloat.lit_0_5 in
  let o := PyFloat.lit_1_0 in
  let t1 := PyFloat.one_third in
  let t2 := PyFloat.two_thirds in
  [ (ALMOST_MAXIMIZED, (z, z, o, o));
    (COL_50_LEFT, (z, z, h, o));
    (COL_50_RIGHT, (h, z, h, o));
    (COL_66_LEFT, (z, z, t2, o));
    (COL_66_RIGHT, (t1, z, t2, o));
    (COL_33_LEFT, (z, z, t1, o));
    (COL_33_CENTER, (t1, z, t1, o));
    (COL_33_RIGHT, (t2, z, t1, o));
    (ROW_50_TOP, (z, z, o, h));
    (ROW_50_BOTTOM, (z, h, o, h));
    (ROW_66_TOP, (z, z, o, t2));
    (ROW_66_BOTTOM, (z, t1, o, t2));
    (ROW_33_TOP, (z, z, o, t1));
    (ROW_33_CENTER, (z, t1, o, t1));
    (ROW_33_BOTTOM, (z, t2, o, t1));
    (CELL_50_LEFT_TOP, (z, z, h, h));
    (CELL_50_LEFT_BOTTOM, (z, h, h, h));
    (CELL_50_RIGHT_TOP, (h, z, h, h));
    (CELL_50_RIGHT_BOTTOM, (h, h, h, h));
    (CELL_33_LEFT_TOP, (z, z, t1, t1));
    (CELL_33_LEFT_CENTER, (z, t1, t1, t1));
    (CELL_33_LEFT_BOTTOM, (z, t2, t1, t1));
    (CELL_33_CENTER_TOP, (t1, z, t1, t1));
    (CELL_33_CENTER_CENTER, (t1, t1, t1, t1));
    (CELL_33_CENTER_BOTTOM, (t1, t2, t1, t1));
    (CELL_33_RIGHT_TOP, (t2, z, t1, t1));
    (CELL_33_RIGHT_CENTER, (t2, t1, t1, t1));
    (CELL_33_RIGHT_BOTTOM, (t2, t2, t1, t1)) ].

Definition LAYOUT_GEOMETRY : gmap string Geom :=
  list_to_map LAYOUT_GEOMETRY_items.

Definition LAYOUT_SEQUENCE : list string :=
  [ FULL_SCREEN; MAXIMIZED; ALMOST_MAXIMIZED;
    COL_50_LEFT; COL_50_RIGHT; COL_66_LEFT; COL_66_RIGHT;
    COL_33_LEFT; COL_33_CENTER; COL_33_RIGHT;
    ROW_50_TOP; ROW_50_BOTTOM; ROW_66_TOP; ROW_66_BOTTOM;
    ROW_33_TOP; ROW_33_CENTER; ROW_33_BOTTOM;
    CELL_50_LEFT_TOP; CELL_50_LEFT_BOTTOM; CELL_50_RIGHT_TOP; CELL_50_RIGHT_BOTTOM;
    CELL_33_LEFT_TOP; CELL_33_LEFT_CENTER; CELL_33_LEFT_BOTTOM;
    CELL_33_CENTER_TOP; CELL_33_CENTER_CENTER; CELL_33_CENTER_BOTTOM;
    CELL_33_RIGHT_TOP; CELL_33_RIGHT_CENTER; CELL_33_RIGHT_BOTTOM ].

Definition LAYOUT_TRANSITIONS_items : list (string * string * string) :=
  [ ((COL_50_LEFT, "up"), CELL_50_LEFT_TOP);
    ((COL_50_LEFT, "down"), CELL_50_LEFT_BOTTOM);
    ((COL_50_RIGHT, "up"), CELL_50_RIGHT_TOP);
    ((COL_50_RIGHT, "down"), CELL_50_RIGHT_BOTTOM);
    ((ROW_50_TOP, "left"), CELL_50_LEFT_TOP);
    ((ROW_50_TOP, "right"), CELL_50_RIGHT_TOP);
    ((ROW_50_BOTTOM, "left"), CELL_50_LEFT_BOTTOM);
    ((ROW_50_BOTTOM, "right"), CELL_50_RIGHT_BOTTOM) ]%string.

Definition LAYOUT_TRANSITIONS : gmap (string * string) string :=
  list_to_map LAYOUT_TRANSITIONS_items.

Definition DEFAULT_TRANSITIONS_items : list (string * string) :=
  [ ("left", COL_50_LEFT);
    ("right", COL_50_RIGHT);
    ("up", ROW_50_TOP);
    ("down", ROW_50_BOTTOM) ]%string.

Definition DEFAULT_TRANSITIONS : gmap string string :=
  list_to_map DEFAULT_TRANSITIONS_items.

(** The four directions the hot keys and the menu pass to [modify_layout]. *)
Definition directions : list string := ["left"; "right"; "up"; "down"]%string.

(** [l.index(x)]: position of the first occurrence, [None] for Python's
    [ValueError]. *)
Fixpoint list_index (x : string) (l : list string) : option nat :=
  match l with
  | [] => None
  | y :: l' => if decide (y = x) then Some 0%nat else S <$> list_index x l'
  end.

(** The index [apply_layout] records for a layout name: its position in
    [LAYOUT_SEQUENCE], and [0] for a name that is not in it. *)
Definition recorded_index (layout : string) : nat :=
  match list_index layout LAYOUT_SEQUENCE with
  | None => 0%nat
  | Some i => i
  end.

(** Python truthiness of a string that may be [None]. *)
Definition str_truthy (s : option string) : option string :=
  match s with
  | Some s' => if decide (s' = ""%string) then None else Some s'
  | None => None
  end.

Arguments str_truthy : simpl never.
Arguments recorded_index : simpl never.

(** ** Displays, configuration, and the outside world *)

(** One entry of [get_connected_displays]: the dict built from a matched
    [xrandr] line. *)
Record Display : Type := mkDisplay {
  x_start : Z;
  x_end : Z;
  y_start : Z;
  y_end : Z;
  offset_left : Z;
  offset_top : Z;
  width : Z;
  height : Z
}.

(** The dict literal of [get_connected_displays], from the four groups
    [w], [h], [ox], [oy] of one match. *)
Definition display_of_match (m : Z * Z * Z * Z) : Display :=
  let '(w, h, ox, oy) := m in
  {| x_start := ox; x_end := ox + w;
     y_start := oy; y_end := oy + h;
     offset_left := ox; offset_top := oy;
     width := w; height := h |}.

(** Class [Config]: the four margins and the notification switch. *)
Record Config : Type := mkConfig {
  window_margin_top : Z;
  window_margin_left : Z;
  screen_margin_bottom : Z;
  screen_margin_right : Z;
  notify_on_apply_layout : bool
}.

Definition default_config : Config :=
  {| window_margin_top := 30; window_margin_left := 30;
     screen_margin_bottom := 30; screen_margin_right := 30;
     notify_on_apply_layout := false |}.

(** What the external tools answer during one operation.
    [xrandr_matches i] is the list of matched [connected] lines of the
    [i]-th run of [xrandr] in that operation, in output order
    ([get_display_for_window] runs it up to twice). A command that
    fails or prints nothing is an empty answer: [window_focus] is the
    empty string, [window_geometry] is [None], the list of matches is
    empty. The tools themselves are installed, as [check_dependencies]
    makes sure at start-up, so the not-found notification of
    [_run_command] does not occur. *)
Record Env : Type := mkEnv {
  window_focus : string;
  window_geometry : string -> option (Z * Z);
  xrandr_matches : nat -> list (Z * Z * Z * Z)
}.

(** Everything the core does to the outside, in program order; writes to
    [_window_state] are logged as well. *)
Inductive Event : Type :=
| GetWindowFocus
| GetWindowGeometry (window_id : string)
| Xrandr
| WindowState (window_id : string) (state_action state_prop : string)
| WindowSize (window_id : string) (w h : Z)
| WindowMove (window_id : string) (l t : Z)
| NotifySend (summary description : string)
| SetState (window_id : string) (layout_index : nat).

(** The three actuator calls that change a window. *)
Definition is_actuation (ev : Event) : bool :=
  match ev with
  | WindowState _ _ _ | WindowSize _ _ _ | WindowMove _ _ _ => true
  | _ => false
  end.

(** [XlapCore]: the tracker dict, and the log of events so far. *)
Record Core : Type := mkCore {
  _window_state : gmap string nat;
  log : list Event
}.

Definition XlapCore_init : Core := {| _window_state := ∅; log := [] |}.

(** ** A state-and-exception monad for the methods of [XlapCore] *)

Definition M (A : Type) : Type := Core -> Res A * Core.

Definition ret {A} (a : A) : M A := fun c => (Ret a, c).

Definition raise {A} (e : Exn) : M A := fun c => (Raise e, c).

Definition bind {A B} (m : M A) (k : A -> M B) : M B :=
  fun c =>
    match m c with
    | (Ret a, c') => k a c'
    | (Raise e, c') => (Raise e, c')
    end.

Definition lift {A} (r : Res A) : M A := fun c => (r, c).

Declare Scope xlap_scope.
Delimit Scope xlap_scope with xlap.
Notation "'let*' x ':=' m 'in' k" := (bind m (fun x => k))
  (at level 10, x name, m at level 100, k at level 200) : xlap_scope.
Notation "m ;;; k" := (bind m (fun _ => k))
  (at level 100, k at level 200, right associativity) : xlap_scope.
Local Open Scope xlap_scope.

Definition emit (ev : Event) : M unit :=
  fun c => (Ret tt, {| _window_state := _window_state c; log := log c ++ [ev] |}).

Definition set_window_state (window_id : string) (i : nat) : M unit :=
  fun c => (Ret tt, {| _window_state := <[window_id := i]> (_window_state c);
                       log := log c ++ [SetState window_id i] |}).

Definition read_window_state : M (gmap string nat) :=
  fun c => (Ret (_window_state c), c).

(** ** The layout engine *)

Section Engine.

Variable env : Env.
Variable cfg : Config.

(** [get_active_window_id]: the command's output, or [None] when empty. *)
Definition get_active_window_id : M (option string) :=
  emit GetWindowFocus ;;;
  ret (str_truthy (Some (window_focus env))).

(** [get_window_position]. *)
Definition get_window_position (window_id : string) : M (option (Z * Z)) :=
  emit (GetWindowGeometry window_id) ;;;
  ret (match window_geometry env window_id with
       | Some (left_, top_) => Some (Z.max 0 left_, Z.max 0 top_)
       | None => None
       end).

(** [get_connected_displays], for the [call]-th run of [xrandr]. *)
Definition get_connected_displays (call : nat) : M (list Display) :=
  emit Xrandr ;;;
  ret (display_of_match <$> xrandr_matches env call).

(** The containment test of the loop in [get_display_for_window]. *)
Definition contains (display : Display) (left_ top_ : Z) : bool :=
  (x_start display <=? left_) && (left_ <? x_end display)
  && (y_start display <=? top_) && (top_ <? y_end display).

(** The [for] loop of [get_display_for_window]: the first display that
    contains the point. *)
Fixpoint display_containing (displays : list Display) (left_ top_ : Z)
  : option Display :=
  match displays with
  | [] => None
  | display :: rest =>
      if contains display left_ top_ then Some display
      else display_containing rest left_ top_
  end.

(** [get_display_for_window]. *)
Definition get_display_for_window (window_id : string) : M (option Display) :=
  let* pos := get_window_position window_id in
  match pos with
  | None => ret None
  | Some (left_, top_) =>
      let* ds := get_connected_displays 0 in
      match display_containing ds left_ top_ with
      | Some display => ret (Some display)
      | None =>
          let* displays := get_connected_displays 1 in
          ret (head displays)
      end
  end.

(** [_set_window_state]. *)
Definition _set_window_state (window_id state_action state_prop : string)
  : M unit :=
  emit (WindowState window_id state_action state_prop).

(** [Notify.send(summary, description)]. *)
Definition Notify_send (summary description : string) : M unit :=
  emit (NotifySend summary description).

(** [int(n * f)] in Python. *)
Definition int_of_product (n : Z) (f : PyFloat.float) : Res Z :=
  match PyFloat.int_mul n f with
  | Ret p => PyFloat.to_int p
  | Raise e => Raise e
  end.

(** The pixel arithmetic of [apply_layout]: [(width, height, left, top)],
    evaluated in the order of the source. *)
Definition layout_bounds (display : Display) (geom : Geom)
  : Res (Z * Z * Z * Z) :=
  let screen_w := width display - screen_margin_right cfg in
  let screen_h := height display - screen_margin_bottom cfg in
  let '(x_f, y_f, w_f, h_f) := geom in
  match int_of_product screen_w w_f with
  | Raise e => Raise e
  | Ret pw =>
  match int_of_product screen_h h_f with
  | Raise e => Raise e
  | Ret ph =>
  match int_of_product screen_w x_f with
  | Raise e => Raise e
  | Ret px =>
  match int_of_product screen_h y_f with
  | Raise e => Raise e
  | Ret py =>
      Ret (pw - window_margin_left cfg,
           ph - window_margin_top cfg,
           offset_left display + px + window_margin_left cfg,
           offset_top display + py + window_margin_top cfg)
  end end end end.

(** The [else] branch of [apply_layout] (a fractional or unknown
    layout). The result says whether the method went on to its last
    statement ([true]) or left through one of the two [return]s. *)
Definition apply_fractional (layout window_id : string) : M bool :=
  let* display := get_display_for_window window_id in
  match display with
  | None =>
      Notify_send "Layout Error"
        ("Display not found for window " +:+ window_id) ;;;
      ret false
  | Some display =>
      match LAYOUT_GEOMETRY !! layout with
      | None => ret false
      | Some geom =>
          let* b := lift (layout_bounds display geom) in
          let '(width, height, left_, top_) := b in
          _set_window_state window_id "--remove"
            "fullscreen,maximized_vert,maximized_horz" ;;;
          emit (WindowSize window_id width height) ;;;
          emit (WindowMove window_id left_ top_) ;;;
          ret true
      end
  end.

(** [apply_layout(layout, window_id)]; [window_id] may be [None]. *)
Definition apply_layout (layout : string) (window_id : option string)
  : M unit :=
  match str_truthy window_id with
  | None => ret tt
  | Some window_id =>
      set_window_state window_id (recorded_index layout) ;;;
      let* finished :=
        (if decide (layout = FULL_SCREEN) then
           _set_window_state window_id "--add" "fullscreen" ;;;
           ret true
         else if decide (layout = MAXIMIZED) then
           _set_window_state window_id "--remove" "fullscreen" ;;;
           _set_window_state window_id "--add" "maximized_vert,maximized_horz" ;;;
           ret true
         else apply_fractional layout window_id) in
      if finished && notify_on_apply_layout cfg
      then Notify_send layout ""
      else ret tt
  end.

(** [LAYOUT_SEQUENCE[last_layout_index]] with the default of
    [modify_layout]; out of range is Python's [IndexError]. *)
Definition current_layout (ws : gmap string nat) (active_window : string)
  : Res string :=
  let last_layout_index :=
    match ws !! active_window with
    | Some i => Some i
    | None => list_index MAXIMIZED LAYOUT_SEQUENCE
    end in
  match last_layout_index with
  | None => Raise ValueError
  | Some i =>
      match LAYOUT_SEQUENCE !! i with
      | Some l => Ret l
      | None => Raise IndexError
      end
  end.

(** The two dictionary lookups of [modify_layout]. *)
Definition transition (current direction : string) : option string :=
  match str_truthy (LAYOUT_TRANSITIONS !! (current, direction)) with
  | Some new_layout => Some new_layout
  | None => DEFAULT_TRANSITIONS !! direction
  end.

(** The layout [modify_layout] decides on for a window. *)
Definition resolve (ws : gmap string nat) (active_window direction : string)
  : Res (option string) :=
  match current_layout ws active_window with
  | Ret current => Ret (transition current direction)
  | Raise e => Raise e
  end.

(** [modify_layout(direction)]. *)
Definition modify_layout (direction : string) : M unit :=
  let* active_window := get_active_window_id in
  match active_window with
  | None => ret tt
  | Some active_window =>
      let* ws := read_window_state in
      let* new_layout := lift (resolve ws active_window direction) in
      match str_truthy new_layout with
      | Some new_layout => apply_layout new_layout (Some active_window)
      | None => ret tt
      end
  end.

End Engine.

(** ** Vocabulary of the properties *)

(** The eight layouts a directional snap can choose. *)
Definition snap_targets : list string :=
  [ COL_50_LEFT; COL_50_RIGHT; ROW_50_TOP; ROW_50_BOTTOM;
    CELL_50_LEFT_TOP; CELL_50_RIGHT_TOP;
    CELL_50_LEFT_BOTTOM; CELL_50_RIGHT_BOTTOM ].

(** Every recorded index is a position of [LAYOUT_SEQUENCE]. *)
Definition tracker_ok (ws : gmap string nat) : Prop :=
  map_Forall (fun _ i => (i < length LAYOUT_SEQUENCE)%nat) ws.

(** [m] never writes to [_window_state], whether it returns or raises. *)
Definition keeps_state {A} (m : M A) : Prop :=
  forall c, _window_state (m c).2 = _window_state c.

(** One directional snap: what the tools answer, the configuration in
    force, and the direction of the hot key or menu entry. *)
Definition Snap : Type := (Env * Config * string)%type.

(** The core after one snap; an exception leaves what was done so far. *)
Definition snap (c : Core) (s : Snap) : Core :=
  let '(env, cfg, direction) := s in (modify_layout env cfg direction c).2.

(** The core after a sequence of snaps. *)
Definition run_snaps (steps : list Snap) (c : Core) : Core :=
  fold_left snap steps c.

(** The layout an index of the tracker denotes. *)
Definition layout_of_index (i : nat) : option string := LAYOUT_SEQUENCE !! i.

(** *** Rounding vocabulary for the float products *)

(** How the round bit and the sticky bit of a right shift by [k] locate
    the discarded remainder [rem] against the half-way point. *)
Definition loc_rel (k rem : Z) (r s : bool) : Prop :=
  match r, s with
  | false, false => rem = 0
  | false, true => 0 < 2 * rem < 2 ^ k
  | true, false => 2 * rem = 2 ^ k
  | true, true => 2 ^ k < 2 * rem
  end.

(** [R] is [M / 2^s] rounded to the nearest integer, ties to even. *)
Definition rne (M s R : Z) : Prop :=
  exists q rem,
    M = q * 2 ^ s + rem /\ 0 <= rem < 2 ^ s
    /\ ((2 * rem < 2 ^ s /\ R = q)
        \/ (2 ^ s < 2 * rem /\ R = q + 1)
        \/ (2 * rem = 2 ^ s /\ Z.even R = true /\ (R = q \/ R = q + 1))).

(** The arithmetic a 53-bit constant [c * 2^ec] has to satisfy for
    [int(n * c)] to be the truncated exact product [n * a / b]: [n * P]
    is the normalised mantissa of [n], and [R] the rounded mantissa of
    the product after a shift by [s]. *)
Definition core_ok (c ec a b : Z) : Prop :=
  forall n P s R,
    0 < n -> 2 <= P ->
    2 ^ 52 <= n * P < 2 ^ 53 ->
    2 ^ (s + 52) <= n * P * c < 2 ^ (s + 53) ->
    s = 52 \/ s = 53 ->
    rne (n * P * c) s R ->
    0 <= - ec - s /\ R / (2 ^ (- ec - s) * P) = n * a / b.

(** *** Exact geometry *)

(** The fractions the literals of [LAYOUT_GEOMETRY] denote, as exact
    rationals, entry by entry. *)
Definition catalog_fractions : list (string * (Q * Q * Q * Q)) :=
  let z := 0 # 1 in
  let h := 1 # 2 in
  let o := 1 # 1 in
  let t1 := 1 # 3 in
  let t2 := 2 # 3 in
  [ (ALMOST_MAXIMIZED, (z, z, o, o));
    (COL_50_LEFT, (z, z, h, o));
    (COL_50_RIGHT, (h, z, h, o));
    (COL_66_LEFT, (z, z, t2, o));
    (COL_66_RIGHT, (t1, z, t2, o));
    (COL_33_LEFT, (z, z, t1, o));
    (COL_33_CENTER, (t1, z, t1, o));
    (COL_33_RIGHT, (t2, z, t1, o));
    (ROW_50_TOP, (z, z, o, h));
    (ROW_50_BOTTOM, (z, h, o, h));
    (ROW_66_TOP, (z, z, o, t2));
    (ROW_66_BOTTOM, (z, t1, o, t2));
    (ROW_33_TOP, (z, z, o, t1));
    (ROW_33_CENTER, (z, t1, o, t1));
    (ROW_33_BOTTOM, (z, t2, o, t1));
    (CELL_50_LEFT_TOP, (z, z, h, h));
    (CELL_50_LEFT_BOTTOM, (z, h, h, h));
    (CELL_50_RIGHT_TOP, (h, z, h, h));
    (CELL_50_RIGHT_BOTTOM, (h, h, h, h));
    (CELL_33_LEFT_TOP, (z, z, t1, t1));
    (CELL_33_LEFT_CENTER, (z, t1, t1, t1));
    (CELL_33_LEFT_BOTTOM, (z, t2, t1, t1));
    (CELL_33_CENTER_TOP, (t1, z, t1, t1));
    (CELL_33_CENTER_CENTER, (t1, t1, t1, t1));
    (CELL_33_CENTER_BOTTOM, (t1, t2, t1, t1));
    (CELL_33_RIGHT_TOP, (t2, z, t1, t1));
    (CELL_33_RIGHT_CENTER, (t2, t1, t1, t1));
    (CELL_33_RIGHT_BOTTOM, (t2, t2, t1, t1)) ]%Q.

(** The double nearest to a fraction: Python's [a / b]. *)
Definition float_of_fraction (q : Q) : PyFloat.float :=
  match PyFloat.truediv (Qnum q) (Z.pos (Qden q)) with
  | Ret f => f
  | Raise _ => S754_nan
  end.

(** Rounding of a rational toward zero. *)
Definition Qtrunc (q : Q) : Z := Z.quot (Qnum q) (Z.pos (Qden q)).

(** The bounds [(width, height, left, top)] with every product exact and
    rounded by [rnd]. *)
Definition exact_bounds (rnd : Q -> Z) (display : Display) (cfg : Config)
    (g : Q * Q * Q * Q) : Z * Z * Z * Z :=
  let '(x, y, w, h) := g in
  let usableWidth := width display - screen_margin_right cfg in
  let usableHeight := height display - screen_margin_bottom cfg in
  (rnd (inject_Z usableWidth * w)%Q - window_margin_left cfg,
   rnd (inject_Z usableHeight * h)%Q - window_margin_top cfg,
   offset_left display + rnd (inject_Z usableWidth * x)%Q + window_margin_left cfg,
   offset_top display + rnd (inject_Z usableHeight * y)%Q + window_margin_top cfg).

(** The bounds as the specification words them, with [floor]. *)
Definition spec_bounds_floor := exact_bounds Qfloor.

(** The bounds with truncation toward zero, as [int()] rounds. *)
Definition trunc_bounds := exact_bounds Qtrunc.

(** The display [get_display_for_window] settles on, as a function of
    what the tools answer. *)
Definition display_found (env : Env) (w : string) : option Display :=
  match window_geometry env w with
  | None => None
  | Some (l, t) =>
      match display_containing (display_of_match <$> xrandr_matches env 0)
              (Z.max 0 l) (Z.max 0 t) with
      | Some d => Some d
      | None => head (display_of_match <$> xrandr_matches env 1)
      end
  end.

(** The queries [get_display_for_window] logs on the way. *)
Definition display_queries (env : Env) (w : string) : list Event :=
  match window_geometry env w with
  | None => [GetWindowGeometry w]
  | Some (l, t) =>
      match display_containing (display_of_match <$> xrandr_matches env 0)
              (Z.max 0 l) (Z.max 0 t) with
      | Some d => [GetWindowGeometry w; Xrandr]
      | None => [GetWindowGeometry w; Xrandr; Xrandr]
      end
  end.

(** The five fractions that occur in the table. *)
Definition table_fraction (q : Q) : bool :=
  let '(a # b)%Q := q in
  ((a =? 0)%Z && (b =? 1)%positive)
  || ((a =? 1)%Z && (b =? 2)%positive)
  || ((a =? 1)%Z && (b =? 1)%positive)
  || ((a =? 1)%Z && (b =? 3)%positive)
  || ((a =? 2)%Z && (b =? 3)%positive).

(** The float entry that belongs to an entry of [catalog_fractions]. *)
Definition rounded_entry (e : string * (Q * Q * Q * Q)) : string * Geom :=
  let '(name, (x, y, w, h)) := e in
  (name, (float_of_fraction x, float_of_fraction y,
          float_of_fraction w, float_of_fraction h)).

(** ** The callers of the core, and further vocabulary *)

(** [IndicatorApp._on_layout_activate]: a layout entry of the menu. *)
Definition _on_layout_activate (env : Env) (cfg : Config)
    (layout_name : string) : M unit :=
  bind (get_active_window_id env) (fun active_window =>
    match active_window with
    | Some w => apply_layout env cfg layout_name (Some w)
    | None => ret tt
    end).

(** One request of the user: a layout entry of the menu, or a snap (hot
    key or menu entry), each with what the tools answer at that moment. *)
Inductive Op : Type :=
| OpLayout (env : Env) (cfg : Config) (layout_name : string)
| OpSnap (env : Env) (cfg : Config) (direction : string).

(** The core after one request; an exception leaves what was done. *)
Definition run_op (c : Core) (o : Op) : Core :=
  match o with
  | OpLayout env cfg layout_name => (_on_layout_activate env cfg layout_name c).2
  | OpSnap env cfg direction => (modify_layout env cfg direction c).2
  end.

Definition run_ops (ops : list Op) (c : Core) : Core := fold_left run_op ops c.

(** The events a method appended to the log. *)
Definition new_events (before after : Core) : list Event :=
  drop (length (log before)) (log after).

(** The window an event is about. *)
Definition event_window (ev : Event) : option string :=
  match ev with
  | GetWindowGeometry w | WindowState w _ _ | WindowSize w _ _
  | WindowMove w _ _ | SetState w _ => Some w
  | GetWindowFocus | Xrandr | NotifySend _ _ => None
  end.

(** [screen_w] and [screen_h] of [apply_layout]. *)
Definition usable_width (cfg : Config) (display : Display) : Z :=
  width display - screen_margin_right cfg.
Definition usable_height (cfg : Config) (display : Display) : Z :=
  height display - screen_margin_bottom cfg.

(** The opposite of a direction. *)
Definition opposite (direction : string) : string :=
  if decide (direction = "left"%string) then "right"%string
  else if decide (direction = "right"%string) then "left"%string
  else if decide (direction = "up"%string) then "down"%string
  else "up"%string.

(** Two display rectangles share no point. *)
Definition rect_disjoint (d1 d2 : Display) : Prop :=
  x_end d1 <= x_start d2 \/ x_end d2 <= x_start d1
  \/ y_end d1 <= y_start d2 \/ y_end d2 <= y_start d1.

(** ** The tray menu and the hot keys *)

(** One dict of [MENU_STRUCTURE], with the keys it may carry. *)
#[warnings="-register-all"]
Inductive MenuDef : Type :=
| MenuEntry (label type_ action : option string)
            (submenu : option (list MenuDef)).

Definition menu_header (label : string) : MenuDef :=
  MenuEntry (Some label) (Some "header"%string) None None.
Definition menu_action (label action : string) : MenuDef :=
  MenuEntry (Some label) None (Some action) None.
Definition menu_layout (label : string) : MenuDef :=
  MenuEntry (Some label) (Some "layout"%string) None None.
Definition menu_separator : MenuDef :=
  MenuEntry None (Some "separator"%string) None None.
Definition menu_submenu (label : string) (items : list MenuDef) : MenuDef :=
  MenuEntry (Some label) None None (Some items).

(** [IndicatorApp.MENU_STRUCTURE]. *)
Definition MENU_STRUCTURE : list MenuDef :=
  [ menu_header "Context-Aware Tiling";
    menu_action "Snap Left (Super + Alt + ←)" "snap_left";
    menu_action "Snap Right (Super + Alt + →)" "snap_right";
    menu_action "Snap Up (Super + Alt + ↑)" "snap_up";
    menu_action "Snap Down (Super + Alt + ↓)" "snap_down";
    menu_separator;
    menu_header "Manual Layouts";
    menu_submenu "Single Window"
      [ menu_layout FULL_SCREEN;
        menu_layout MAXIMIZED;
        menu_layout ALMOST_MAXIMIZED ];
    menu_submenu "Columns"
      [ menu_layout COL_50_LEFT;
        menu_layout COL_50_RIGHT;
        menu_separator;
        menu_layout COL_66_LEFT;
        menu_layout COL_66_RIGHT;
        menu_separator;
        menu_layout COL_33_LEFT;
        menu_layout COL_33_CENTER;
        menu_layout COL_33_RIGHT ];
    menu_submenu "Rows & Cells"
      [ menu_layout ROW_50_TOP;
        menu_layout ROW_50_BOTTOM;
        menu_separator;
        menu_layout CELL_50_LEFT_TOP;
        menu_layout CELL_50_RIGHT_TOP;
        menu_layout CELL_50_LEFT_BOTTOM;
        menu_layout CELL_50_RIGHT_BOTTOM ];
    menu_separator;
    menu_header "Xlap";
    menu_action "Settings..." "settings";
    menu_action "Reload Config" "reload_config";
    menu_action "About" "about";
    menu_separator;
    menu_action "Exit" "exit" ]%string.

(** The names [n] for which [IndicatorApp] has a method [_action_n]. *)
Definition action_methods : list string :=
  [ "snap_left"; "snap_right"; "snap_up"; "snap_down";
    "settings"; "reload_config"; "about"; "exit" ]%string.

(** What a menu item is connected to. *)
Inductive Callback : Type :=
| OnLayoutActivate (layout_name : string)
| OnAction (action_name : string).

(** The GTK items [_build_menu_items] creates. *)
#[warnings="-register-all"]
Inductive Widget : Type :=
| SeparatorMenuItem
| MenuItem (label : string) (sensitive : bool) (activate : option Callback)
           (submenu : option (list Widget)).

(** [_build_menu_items], one entry at a time. *)
Fixpoint build_menu_item (item_def : MenuDef) : Widget :=
  match item_def with
  | MenuEntry label item_type action submenu =>
      let label := match label with Some l => l | None => ""%string end in
      if decide (item_type = Some "separator"%string) then SeparatorMenuItem
      else
        match submenu with
        | Some items =>
            MenuItem label true None (Some (List.map build_menu_item items))
        | None =>
            if decide (item_type = Some "header"%string) then
              MenuItem label false None None
            else if decide (item_type = Some "layout"%string) then
              MenuItem label true (Some (OnLayoutActivate label)) None
            else
              match str_truthy action with
              | Some action_name =>
                  if decide (action_name ∈ action_methods) then
                    MenuItem label true (Some (OnAction action_name)) None
                  else MenuItem label true None None
              | None => MenuItem label true None None
              end
        end
  end.

Definition _build_menu_items (items : list MenuDef) : list Widget :=
  List.map build_menu_item items.

(** Every callback connected somewhere in a menu. *)
Fixpoint widget_callbacks (w : Widget) : list Callback :=
  match w with
  | SeparatorMenuItem => []
  | MenuItem _ _ activate submenu =>
      match activate with Some cb => [cb] | None => [] end
      ++ match submenu with
         | Some ws => List.concat (List.map widget_callbacks ws)
         | None => []
         end
  end.

Definition menu_callbacks (ws : list Widget) : list Callback :=
  List.concat (List.map widget_callbacks ws).

(** The labels of the items one can click that are connected to
    nothing. *)
Fixpoint widget_unconnected (w : Widget) : list string :=
  match w with
  | SeparatorMenuItem => []
  | MenuItem label sensitive activate submenu =>
      match submenu with
      | Some ws => List.concat (List.map widget_unconnected ws)
      | None =>
          match activate with
          | Some _ => []
          | None => if sensitive then [label] else []
          end
      end
  end.

(** The direction each snap method of [IndicatorApp] passes on. *)
Definition snap_action_direction (action_name : string) : option string :=
  if decide (action_name = "snap_left"%string) then Some "left"%string
  else if decide (action_name = "snap_right"%string) then Some "right"%string
  else if decide (action_name = "snap_up"%string) then Some "up"%string
  else if decide (action_name = "snap_down"%string) then Some "down"%string
  else None.

(** [HotkeyListener.hotkeys]: key combination and direction. *)
Definition hotkeys : list (string * string) :=
  [ ("<cmd>+<alt>+<left>", "left");
    ("<cmd>+<alt>+<right>", "right");
    ("<cmd>+<alt>+<up>", "up");
    ("<cmd>+<alt>+<down>", "down") ]%string.

(** What activating a callback does to the core, for the callbacks that
    reach it; the other actions (settings, reload, about, exit) do not
    touch [XlapCore]. *)
Definition run_callback (env : Env) (cfg : Config) (cb : Callback) : M unit :=
  match cb with
  | OnLayoutActivate layout_name => _on_layout_activate env cfg layout_name
  | OnAction action_name =>
      match snap_action_direction action_name with
      | Some direction => modify_layout env cfg direction
      | None => ret tt
      end
  end.

(** * Properties *)

Local Open Scope string_scope.

(** ** The tables *)

Lemma list_index_lookup (x : string) (l : list string) (i : nat) :
  list_index x l = Some i -> l !! i = Some x.
Proof.
  revert i. induction l as [|y l IH]; intros i; simpl; [discriminate|].
  destruct (decide (y = x)) as [->|_].
  - intros [= <-]. reflexivity.
  - destruct (list_index x l) as [j|]; simpl; [|discriminate].
    intros [= <-]. simpl. apply IH. reflexivity.
Qed.

Lemma list_index_elem (x : string) (l : list string) :
  x ∈ l -> is_Some (list_index x l).
Proof.
  induction 1 as [x l|x y l _ IH]; simpl.
  - rewrite decide_True by reflexivity. eauto.
  - destruct (decide (y = x)); [eauto|].
    destruct IH as [j ->]. simpl. eauto.
Qed.

Lemma explicit_rule_inv (current direction target : string) :
  LAYOUT_TRANSITIONS !! (current, direction) = Some target ->
  (current, direction, target) ∈ LAYOUT_TRANSITIONS_items.
Proof. apply elem_of_list_to_map_2. Qed.

Lemma default_rule_inv (direction target : string) :
  DEFAULT_TRANSITIONS !! direction = Some target ->
  (direction, target) ∈ DEFAULT_TRANSITIONS_items.
Proof. apply elem_of_list_to_map_2. Qed.

Lemma str_truthy_Some (o : option string) (s : string) :
  str_truthy o = Some s <-> o = Some s /\ s <> "".
Proof.
  unfold str_truthy. destruct o as [s'|]; [|split; [discriminate|intros [? _]; discriminate]].
  destruct (decide (s' = "")) as [->|Hne].
  - split; [discriminate|]. intros [[= ->] Hs]. contradiction.
  - split; [intros [= ->]; auto|]. intros [[= ->] _]. reflexivity.
Qed.

Lemma str_truthy_None_lookup (o : option string) :
  o = None -> str_truthy o = None.
Proof. intros ->. reflexivity. Qed.

(** Every direction has a default, and the default is a half. *)
Lemma default_total (d : string) :
  d ∈ directions ->
  exists t, DEFAULT_TRANSITIONS !! d = Some t /\ t <> "" /\ t ∈ snap_targets.
Proof.
  unfold directions. rewrite !elem_of_cons, elem_of_nil.
  intros [-> | [-> | [-> | [-> | []]]]];
    eexists; (split; [vm_compute; reflexivity|]);
    (split; [discriminate|]); unfold snap_targets; set_solver.
Qed.

(** Whatever [transition] answers is one of the eight snap targets. *)
Lemma transition_image (current direction t : string) :
  transition current direction = Some t -> t ∈ snap_targets.
Proof.
  unfold transition.
  destruct (str_truthy (LAYOUT_TRANSITIONS !! (current, direction))) as [n|] eqn:E.
  - intros [= <-]. apply str_truthy_Some in E as [E _].
    apply explicit_rule_inv in E.
    unfold LAYOUT_TRANSITIONS_items in E.
    rewrite !elem_of_cons, elem_of_nil in E.
    unfold snap_targets.
    destruct E as [E|[E|[E|[E|[E|[E|[E|[E|[]]]]]]]]];
      injection E as _ _ ->; set_solver.
  - intros E'. apply default_rule_inv in E'.
    unfold DEFAULT_TRANSITIONS_items in E'.
    rewrite !elem_of_cons, elem_of_nil in E'.
    unfold snap_targets.
    destruct E' as [E'|[E'|[E'|[E'|[]]]]];
      injection E' as _ ->; set_solver.
Qed.

(** A snap target heads no explicit rule for the direction that led to it. *)
Lemma no_rule_after_snap (current d t : string) :
  d ∈ directions ->
  transition current d = Some t ->
  LAYOUT_TRANSITIONS !! (t, d) = None.
Proof.
  intros Hd. unfold transition.
  destruct (str_truthy (LAYOUT_TRANSITIONS !! (current, d))) as [n|] eqn:E.
  - intros [= <-]. apply str_truthy_Some in E as [E _].
    apply explicit_rule_inv in E.
    unfold LAYOUT_TRANSITIONS_items in E.
    rewrite !elem_of_cons, elem_of_nil in E.
    destruct E as [E|[E|[E|[E|[E|[E|[E|[E|[]]]]]]]]];
      injection E as _ -> ->; vm_compute; reflexivity.
  - intros E'. apply default_rule_inv in E'.
    unfold DEFAULT_TRANSITIONS_items in E'.
    rewrite !elem_of_cons, elem_of_nil in E'.
    destruct E' as [E'|[E'|[E'|[E'|[]]]]];
      injection E' as -> ->; vm_compute; reflexivity.
Qed.

(** ** The tracker invariant *)

Lemma tracker_ok_empty : tracker_ok ∅.
Proof. apply map_Forall_empty. Qed.

Lemma recorded_index_lt (layout : string) :
  (recorded_index layout < length LAYOUT_SEQUENCE)%nat.
Proof.
  unfold recorded_index.
  destruct (list_index layout LAYOUT_SEQUENCE) as [i|] eqn:E.
  - apply list_index_lookup in E. eapply lookup_lt_Some, E.
  - simpl. lia.
Qed.

Lemma current_layout_total (ws : gmap string nat) (w : string) :
  tracker_ok ws -> exists l, current_layout ws w = Ret l /\ l ∈ LAYOUT_SEQUENCE.
Proof.
  intros Hok. unfold current_layout.
  destruct (ws !! w) as [i|] eqn:E.
  - apply Hok in E. apply lookup_lt_is_Some_2 in E as [l Hl].
    rewrite Hl. exists l. split; [reflexivity|].
    eapply list_elem_of_lookup_2, Hl.
  - exists MAXIMIZED. split; [reflexivity|]. unfold LAYOUT_SEQUENCE. set_solver.
Qed.

(** ** What a method leaves in the tracker *)

Lemma keeps_state_ret {A} (a : A) : keeps_state (ret a).
Proof. intros c. reflexivity. Qed.

Lemma keeps_state_lift {A} (r : Res A) : keeps_state (lift r).
Proof. intros c. reflexivity. Qed.

Lemma keeps_state_emit (ev : Event) : keeps_state (emit ev).
Proof. intros c. reflexivity. Qed.

Lemma keeps_state_bind {A B} (m : M A) (k : A -> M B) :
  keeps_state m -> (forall a, keeps_state (k a)) -> keeps_state (bind m k).
Proof.
  intros Hm Hk c. unfold bind. specialize (Hm c).
  destruct (m c) as [[a|e] c']; simpl in *.
  - rewrite Hk. exact Hm.
  - exact Hm.
Qed.

Ltac keeps_state_tac :=
  repeat first
    [ apply keeps_state_ret | apply keeps_state_lift | apply keeps_state_emit
    | apply keeps_state_bind; [|intros ?] ].

Lemma keeps_state_get_display_for_window env (w : string) :
  keeps_state (get_display_for_window env w).
Proof.
  unfold get_display_for_window, get_window_position, get_connected_displays.
  apply keeps_state_bind; [keeps_state_tac|].
  intros [[l t]|]; keeps_state_tac.
  destruct (display_containing _ l t); keeps_state_tac.
Qed.

Lemma keeps_state_apply_fractional env cfg (layout w : string) :
  keeps_state (apply_fractional env cfg layout w).
Proof.
  unfold apply_fractional. apply keeps_state_bind.
  - apply keeps_state_get_display_for_window.
  - intros [d|]; [|unfold Notify_send; keeps_state_tac].
    destruct (LAYOUT_GEOMETRY !! layout) as [g|]; [|keeps_state_tac].
    apply keeps_state_bind; [keeps_state_tac|].
    intros [[[? ?] ?] ?]. unfold _set_window_state. keeps_state_tac.
Qed.

(** [apply_layout] on a usable window identifier overwrites exactly that
    window's entry, on every path. *)
Lemma apply_layout_state env cfg (layout w : string) (c : Core) :
  w <> "" ->
  _window_state (apply_layout env cfg layout (Some w) c).2
  = <[w := recorded_index layout]> (_window_state c).
Proof.
  intros Hw. unfold apply_layout, str_truthy.
  rewrite decide_False by exact Hw.
  unfold bind at 1. simpl.
  match goal with |- _window_state (?m ?c0).2 = _ =>
    assert (keeps_state m) as Hk end.
  { apply keeps_state_bind.
    - repeat case_decide;
        first [ apply keeps_state_apply_fractional
              | unfold _set_window_state; keeps_state_tac ].
    - intros b. destruct (b && _); unfold Notify_send; keeps_state_tac. }
  rewrite Hk. reflexivity.
Qed.

Lemma modify_layout_state env cfg (direction : string) (c : Core) :
  _window_state (modify_layout env cfg direction c).2
  = match str_truthy (Some (window_focus env)) with
    | None => _window_state c
    | Some w =>
        match resolve (_window_state c) w direction with
        | Ret new_layout =>
            match str_truthy new_layout with
            | Some l => <[w := recorded_index l]> (_window_state c)
            | None => _window_state c
            end
        | Raise _ => _window_state c
        end
    end.
Proof.
  unfold modify_layout, get_active_window_id.
  unfold bind at 1. unfold bind at 1. simpl.
  destruct (str_truthy (Some (window_focus env))) as [w|] eqn:Ew; [|reflexivity].
  apply str_truthy_Some in Ew as [_ Hw].
  unfold bind at 1. simpl. unfold bind at 1. unfold lift.
  destruct (resolve (_window_state c) w direction) as [nl|e]; [|reflexivity].
  destruct (str_truthy nl) as [l|]; [|reflexivity].
  rewrite apply_layout_state by exact Hw. reflexivity.
Qed.

Lemma tracker_ok_insert (ws : gmap string nat) (w layout : string) :
  tracker_ok ws -> tracker_ok (<[w := recorded_index layout]> ws).
Proof.
  intros Hok. apply map_Forall_insert_2; [|exact Hok].
  apply recorded_index_lt.
Qed.

Lemma apply_layout_tracker_ok env cfg (layout : string) (w : option string) (c : Core) :
  tracker_ok (_window_state c) ->
  tracker_ok (_window_state (apply_layout env cfg layout w c).2).
Proof.
  intros Hok. destruct (str_truthy w) as [w'|] eqn:E.
  - apply str_truthy_Some in E as [-> Hw].
    rewrite apply_layout_state by exact Hw. apply tracker_ok_insert, Hok.
  - unfold apply_layout. rewrite E. exact Hok.
Qed.

Lemma modify_layout_tracker_ok env cfg (direction : string) (c : Core) :
  tracker_ok (_window_state c) ->
  tracker_ok (_window_state (modify_layout env cfg direction c).2).
Proof.
  intros Hok. rewrite modify_layout_state.
  repeat case_match; try exact Hok. apply tracker_ok_insert, Hok.
Qed.

(** ** The transition state machine *)

(** C1. For every layout name [L] (catalog, special or unknown) and every
    direction [d] of the four with no explicit rule for [(L, d)], the
    engine answers exactly [DEFAULT_TRANSITIONS[d]], and resolution is
    total: every pair gives a layout, and on every tracker the methods
    can build it returns one without raising. *)
Theorem resolve_default_and_total
    (ws : gmap string nat) (w L d : string) :
  tracker_ok ws ->
  d ∈ directions ->
  ((L, d) ∉ dom LAYOUT_TRANSITIONS ->
     transition L d = DEFAULT_TRANSITIONS !! d
     /\ (current_layout ws w = Ret L ->
         resolve ws w d = Ret (DEFAULT_TRANSITIONS !! d)))
  /\ is_Some (DEFAULT_TRANSITIONS !! d)
  /\ (exists t, transition L d = Some t)
  /\ (exists t, resolve ws w d = Ret (Some t)).
Proof.
  intros Hok Hd.
  destruct (default_total d Hd) as (t0 & Ht0 & _ & _).
  assert (forall L', exists t, transition L' d = Some t) as Htot.
  { intros L'. unfold transition.
    destruct (str_truthy (LAYOUT_TRANSITIONS !! (L', d))) as [n|]; eauto. }
  split; [|split; [eauto|split; [apply Htot|]]].
  - intros Hkey. apply not_elem_of_dom in Hkey.
    assert (transition L d = DEFAULT_TRANSITIONS !! d) as HT.
    { unfold transition. rewrite Hkey. reflexivity. }
    split; [exact HT|]. intros Hcur. unfold resolve. rewrite Hcur, HT. reflexivity.
  - destruct (current_layout_total ws w Hok) as (l & Hl & _).
    destruct (Htot l) as [t Ht]. exists t. unfold resolve. rewrite Hl, Ht. reflexivity.
Qed.

Lemma resolve_default_and_total_witness :
  resolve ∅ "w7" "down" = Ret (DEFAULT_TRANSITIONS !! "down")
  /\ exists t, resolve ∅ "w7" "down" = Ret (Some t).
Proof.
  destruct (resolve_default_and_total ∅ "w7" "Maximized" "down") as (H1 & _ & _ & H4).
  - apply map_Forall_empty.
  - unfold directions. repeat constructor.
  - split; [|exact H4].
    apply H1; [|reflexivity].
    apply not_elem_of_dom. vm_compute. reflexivity.
Defined.

(** C2. Each of the eight explicit rules wins over the default: a window
    whose recorded layout is the rule's source resolves to the rule's
    corner cell, whatever else the tracker holds. *)
Theorem explicit_rules_resolve
    (ws : gmap string nat) (w src d tgt : string) :
  (src, d, tgt) ∈
    [ ("50% Left", "up", "50% Top Left");
      ("50% Left", "down", "50% Bottom Left");
      ("50% Right", "up", "50% Top Right");
      ("50% Right", "down", "50% Bottom Right");
      ("50% Top", "left", "50% Top Left");
      ("50% Top", "right", "50% Top Right");
      ("50% Bottom", "left", "50% Bottom Left");
      ("50% Bottom", "right", "50% Bottom Right") ] ->
  LAYOUT_TRANSITIONS !! (src, d) = Some tgt
  /\ transition src d = Some tgt
  /\ (current_layout ws w = Ret src -> resolve ws w d = Ret (Some tgt)).
Proof.
  rewrite !elem_of_cons, elem_of_nil.
  intros H.
  assert (LAYOUT_TRANSITIONS !! (src, d) = Some tgt /\ transition src d = Some tgt)
    as [H1 H2].
  { destruct H as [H|[H|[H|[H|[H|[H|[H|[H|[]]]]]]]]];
      injection H as -> -> ->; split; vm_compute; reflexivity. }
  split; [exact H1|split; [exact H2|]].
  intros Hcur. unfold resolve. rewrite Hcur, H2. reflexivity.
Qed.

Lemma explicit_rules_resolve_witness :
  resolve {[ "w1" := 3%nat; "w2" := 29%nat ]} "w1" "up" = Ret (Some "50% Top Left").
Proof.
  apply (explicit_rules_resolve _ "w1" "50% Left" "up" "50% Top Left").
  - repeat constructor.
  - vm_compute. reflexivity.
Defined.

(** C8. A window the tracker has never seen counts as "Maximized"; no
    rule has key (Maximized, left), so "left" resolves to "50% Left", and
    that is the layout [modify_layout] then records for it. *)
Theorem unseen_window_snaps_left
    (env : Env) (cfg : Config) (c : Core) (w : string) :
  _window_state c !! w = None ->
  current_layout (_window_state c) w = Ret "Maximized"
  /\ LAYOUT_TRANSITIONS !! ("Maximized", "left") = None
  /\ resolve (_window_state c) w "left" = Ret (Some "50% Left")
  /\ (window_focus env = w -> w <> "" ->
      layout_of_index
        <$> _window_state (modify_layout env cfg "left" c).2 !! w
      = Some (Some "50% Left")).
Proof.
  intros Hnone.
  assert (current_layout (_window_state c) w = Ret "Maximized") as Hcur.
  { unfold current_layout. rewrite Hnone. reflexivity. }
  assert (resolve (_window_state c) w "left" = Ret (Some "50% Left")) as Hres.
  { unfold resolve. rewrite Hcur. vm_compute. reflexivity. }
  split; [exact Hcur|split; [vm_compute; reflexivity|split; [exact Hres|]]].
  intros Hf Hw. rewrite modify_layout_state.
  assert (str_truthy (Some (window_focus env)) = Some w) as ->.
  { apply str_truthy_Some. rewrite Hf. auto. }
  rewrite Hres.
  assert (str_truthy (Some "50% Left") = Some "50% Left") as -> by reflexivity.
  rewrite lookup_insert_eq. reflexivity.
Qed.

Lemma unseen_window_snaps_left_witness :
  resolve (_window_state XlapCore_init) "0x3a00007" "left" = Ret (Some "50% Left").
Proof.
  apply (unseen_window_snaps_left
           {| window_focus := "0x3a00007";
              window_geometry := fun _ => None;
              xrandr_matches := fun _ => [] |}
           default_config XlapCore_init "0x3a00007").
  reflexivity.
Defined.

(** Two snaps in the same direction, on the level of the tracker. *)
Lemma snap_records (env : Env) (cfg : Config) (c : Core) (w d : string) :
  tracker_ok (_window_state c) ->
  d ∈ directions ->
  window_focus env = w -> w <> "" ->
  exists L t,
    current_layout (_window_state c) w = Ret L
    /\ transition L d = Some t
    /\ _window_state (modify_layout env cfg d c).2
       = <[w := recorded_index t]> (_window_state c)
    /\ layout_of_index (recorded_index t) = Some t.
Proof.
  intros Hok Hd Hf Hw.
  destruct (current_layout_total _ w Hok) as (L & HL & _).
  assert (exists t, transition L d = Some t) as [t Ht].
  { destruct (default_total d Hd) as (t0 & Ht0 & _).
    unfold transition.
    destruct (str_truthy (LAYOUT_TRANSITIONS !! (L, d))); eauto. }
  assert (t ∈ snap_targets) as Hin by (eapply transition_image, Ht).
  assert (t <> "" /\ layout_of_index (recorded_index t) = Some t) as [Hne Hidx].
  { unfold snap_targets in Hin. rewrite !elem_of_cons, elem_of_nil in Hin.
    destruct Hin as [->|[->|[->|[->|[->|[->|[->|[->|[]]]]]]]]];
      (split; [discriminate|vm_compute; reflexivity]). }
  exists L, t. split; [exact HL|split; [exact Ht|split; [|exact Hidx]]].
  rewrite modify_layout_state.
  assert (str_truthy (Some (window_focus env)) = Some w) as ->.
  { apply str_truthy_Some. rewrite Hf. auto. }
  unfold resolve. rewrite HL, Ht.
  assert (str_truthy (Some t) = Some t) as ->.
  { apply str_truthy_Some. auto. }
  reflexivity.
Qed.

(** C9. Snapping twice in the same direction always ends on that
    direction's default half: for every layout name [L] (in particular
    every catalog layout) and every direction [d], the first result [t]
    heads no explicit rule for [d], so [T(T(L, d), d) = DEFAULT[d]]; and
    two successive [modify_layout(d)] on one focused window leave the
    tracker on the index of that half. *)
Theorem double_snap_is_default
    (env1 env2 : Env) (cfg1 cfg2 : Config) (c : Core) (w L d : string) :
  tracker_ok (_window_state c) ->
  d ∈ directions ->
  window_focus env1 = w -> window_focus env2 = w -> w <> "" ->
  (exists t,
      transition L d = Some t
      /\ LAYOUT_TRANSITIONS !! (t, d) = None
      /\ transition t d = DEFAULT_TRANSITIONS !! d)
  /\ (exists h,
        DEFAULT_TRANSITIONS !! d = Some h
        /\ layout_of_index
             <$> _window_state
                   (modify_layout env2 cfg2 d
                      (modify_layout env1 cfg1 d c).2).2 !! w
           = Some (Some h)).
Proof.
  intros Hok Hd Hf1 Hf2 Hw.
  assert (forall L', exists t, transition L' d = Some t
            /\ LAYOUT_TRANSITIONS !! (t, d) = None
            /\ transition t d = DEFAULT_TRANSITIONS !! d) as Hpure.
  { intros L'. destruct (default_total d Hd) as (t0 & Ht0 & _).
    assert (exists t, transition L' d = Some t) as [t Ht].
    { unfold transition.
      destruct (str_truthy (LAYOUT_TRANSITIONS !! (L', d))); eauto. }
    exists t. split; [exact Ht|].
    pose proof (no_rule_after_snap _ _ _ Hd Ht) as Hno.
    split; [exact Hno|]. unfold transition. rewrite Hno. reflexivity. }
  split; [apply Hpure|].
  destruct (snap_records env1 cfg1 c w d Hok Hd Hf1 Hw)
    as (L1 & t1 & _ & Ht1 & Hs1 & Hi1).
  pose proof (modify_layout_tracker_ok env1 cfg1 d c Hok) as Hok1.
  destruct (snap_records env2 cfg2 _ w d Hok1 Hd Hf2 Hw)
    as (L2 & t2 & HL2 & Ht2 & Hs2 & Hi2).
  rewrite Hs2, lookup_insert_eq. simpl. rewrite Hi2.
  assert (L2 = t1) as ->.
  { revert HL2. unfold current_layout. rewrite Hs1, lookup_insert_eq.
    fold (layout_of_index (recorded_index t1)). rewrite Hi1. congruence. }
  destruct (Hpure L1) as (t & Ht & _ & Htt).
  assert (t = t1) as -> by congruence.
  rewrite Ht2 in Htt. exists t2. split; [symmetry; exact Htt|reflexivity].
Qed.

Lemma double_snap_is_default_witness :
  (exists t, transition "33% Center" "up" = Some t
             /\ LAYOUT_TRANSITIONS !! (t, "up") = None
             /\ transition t "up" = DEFAULT_TRANSITIONS !! "up").
Proof.
  pose (e := {| window_focus := "0x1c00005";
                window_geometry := fun _ => Some (5, 5);
                xrandr_matches := fun _ => [(1920, 1080, 0, 0)] |}).
  refine (proj1 (double_snap_is_default e e default_config default_config
                   XlapCore_init "0x1c00005" "33% Center" "up" _ _ _ _ _)).
  - apply map_Forall_empty.
  - unfold directions. repeat constructor.
  - reflexivity.
  - reflexivity.
  - discriminate.
Defined.

(** Snaps keep recorded indices inside the eight snap targets. *)
Lemma snap_keeps_targets (s : Snap) (c : Core) (P : gmap string nat) :
  (forall w i, _window_state c !! w = Some i ->
     P !! w = Some i \/ exists t, layout_of_index i = Some t /\ t ∈ snap_targets) ->
  (forall w i, _window_state (snap c s) !! w = Some i ->
     P !! w = Some i \/ exists t, layout_of_index i = Some t /\ t ∈ snap_targets).
Proof.
  destruct s as [[env cfg] d]. intros Hinv w i. unfold snap.
  rewrite modify_layout_state.
  destruct (str_truthy (Some (window_focus env))) as [aw|]; [|apply Hinv].
  unfold resolve.
  destruct (current_layout (_window_state c) aw) as [L|e]; [|apply Hinv].
  destruct (str_truthy (transition L d)) as [t|] eqn:Et; [|apply Hinv].
  apply str_truthy_Some in Et as [Et _].
  pose proof (transition_image _ _ _ Et) as Hin.
  destruct (decide (aw = w)) as [->|Hne].
  - rewrite lookup_insert_eq. intros [= <-]. right. exists t. split; [|exact Hin].
    unfold snap_targets in Hin. rewrite !elem_of_cons, elem_of_nil in Hin.
    destruct Hin as [->|[->|[->|[->|[->|[->|[->|[->|[]]]]]]]]];
      vm_compute; reflexivity.
  - rewrite lookup_insert_ne by exact Hne. apply Hinv.
Qed.

Lemma run_snaps_keeps_targets (steps : list Snap) (c : Core) (P : gmap string nat) :
  (forall w i, _window_state c !! w = Some i ->
     P !! w = Some i \/ exists t, layout_of_index i = Some t /\ t ∈ snap_targets) ->
  (forall w i, _window_state (run_snaps steps c) !! w = Some i ->
     P !! w = Some i \/ exists t, layout_of_index i = Some t /\ t ∈ snap_targets).
Proof.
  revert c. induction steps as [|s steps IH]; intros c Hinv; simpl; [exact Hinv|].
  apply IH. apply snap_keeps_targets. exact Hinv.
Qed.

(** C10. Whatever [transition] answers is one of the eight layouts
    50% Left, 50% Right, 50% Top, 50% Bottom and the four 50% corners;
    so after any sequence of directional snaps on a fresh core every
    recorded index denotes one of these eight, and from any core every
    entry is either as it was or one of the eight: no thirds layout and
    no special layout is ever reached by snapping. *)
Theorem snaps_stay_in_eight (steps : list Snap) :
  (forall L d t, transition L d = Some t ->
     t ∈ [ "50% Left"; "50% Right"; "50% Top"; "50% Bottom";
           "50% Top Left"; "50% Top Right";
           "50% Bottom Left"; "50% Bottom Right" ])
  /\ (forall w i,
        _window_state (run_snaps steps XlapCore_init) !! w = Some i ->
        exists t, LAYOUT_SEQUENCE !! i = Some t
          /\ t ∈ [ "50% Left"; "50% Right"; "50% Top"; "50% Bottom";
                   "50% Top Left"; "50% Top Right";
                   "50% Bottom Left"; "50% Bottom Right" ])
  /\ (forall c w i,
        _window_state (run_snaps steps c) !! w = Some i ->
        _window_state c !! w = Some i
        \/ exists t, LAYOUT_SEQUENCE !! i = Some t
             /\ t ∈ [ "50% Left"; "50% Right"; "50% Top"; "50% Bottom";
                      "50% Top Left"; "50% Top Right";
                      "50% Bottom Left"; "50% Bottom Right" ]).
Proof.
  assert (forall t, t ∈ snap_targets ->
            t ∈ [ "50% Left"; "50% Right"; "50% Top"; "50% Bottom";
                  "50% Top Left"; "50% Top Right";
                  "50% Bottom Left"; "50% Bottom Right" ]) as Hsame
    by (intros t Ht; exact Ht).
  assert (forall c w i,
        _window_state (run_snaps steps c) !! w = Some i ->
        _window_state c !! w = Some i
        \/ exists t, LAYOUT_SEQUENCE !! i = Some t /\ t ∈ snap_targets) as Hgen.
  { intros c. apply (run_snaps_keeps_targets steps c (_window_state c)).
    intros w i H. left. exact H. }
  split; [|split].
  - intros L d t Ht. apply Hsame. eapply transition_image, Ht.
  - intros w i H. destruct (Hgen _ _ _ H) as [H0|H0]; [|exact H0].
    simpl in H0. rewrite lookup_empty in H0. discriminate.
  - exact Hgen.
Qed.

Lemma snaps_stay_in_eight_witness :
  exists t, LAYOUT_SEQUENCE !! 17%nat = Some t
    /\ t ∈ [ "50% Left"; "50% Right"; "50% Top"; "50% Bottom";
             "50% Top Left"; "50% Top Right";
             "50% Bottom Left"; "50% Bottom Right" ].
Proof.
  pose (e := {| window_focus := "0x1c00005";
                window_geometry := fun _ => Some (5, 5);
                xrandr_matches := fun _ => [(1920, 1080, 0, 0)] |}).
  apply (proj1 (proj2 (snaps_stay_in_eight
                         [(e, default_config, "left"); (e, default_config, "up")]))
           "0x1c00005" 17%nat).
  vm_compute. reflexivity.
Defined.

(** ** Display lookup *)

(** The half-open containment test, as a proposition. *)
Lemma contains_spec (d : Display) (px py : Z) :
  contains d px py = true
  <-> (x_start d <= px < x_end d /\ y_start d <= py < y_end d)%Z.
Proof. unfold contains. rewrite !andb_true_iff. lia. Qed.

Lemma display_containing_Some (ds : list Display) (px py : Z) (d : Display) :
  display_containing ds px py = Some d <->
  exists i : nat, ds !! i = Some d /\ contains d px py = true
    /\ forall (j : nat) d', (j < i)%nat -> ds !! j = Some d' -> contains d' px py = false.
Proof.
  induction ds as [|d0 ds IH]; simpl.
  - split; [discriminate|]. intros (i & Hi & _). rewrite lookup_nil in Hi. discriminate.
  - destruct (contains d0 px py) eqn:E0.
    + split.
      * intros [= <-]. exists 0%nat. split; [reflexivity|split; [exact E0|]]. intros; lia.
      * intros (i & Hi & Hc & Hfirst). destruct i as [|i]; [simpl in Hi; congruence|].
        specialize (Hfirst 0%nat d0 ltac:(lia) eq_refl). congruence.
    + rewrite IH. split.
      * intros (i & Hi & Hc & Hfirst). exists (S i).
        split; [exact Hi|split; [exact Hc|]].
        intros [|j] d' Hj Hd'; simpl in Hd'; [congruence|].
        eapply Hfirst; [|exact Hd']. lia.
      * intros (i & Hi & Hc & Hfirst). destruct i as [|i]; [simpl in Hi; congruence|].
        exists i. split; [exact Hi|split; [exact Hc|]].
        intros j d' Hj Hd'. apply (Hfirst (S j) d'); [lia|exact Hd'].
Qed.

Lemma display_containing_None (ds : list Display) (px py : Z) :
  display_containing ds px py = None <->
  forall d, d ∈ ds -> contains d px py = false.
Proof.
  induction ds as [|d0 ds IH]; simpl.
  - split; [|reflexivity]. intros _ d Hd. inversion Hd.
  - destruct (contains d0 px py) eqn:E0.
    + split; [discriminate|]. intros H. specialize (H d0 ltac:(left)). congruence.
    + rewrite IH. split.
      * intros H d Hd. apply elem_of_cons in Hd as [->|Hd]; [exact E0|apply H, Hd].
      * intros H d Hd. apply H. right. exact Hd.
Qed.

(** C7. The loop returns the first display, in enumeration order, whose
    rectangle contains the point under the half-open test
    [x_start <= px < x_end] and [y_start <= py < y_end], and nothing when
    no display contains it; with the displays [0,1920)x[0,1080) and
    [1920,3840)x[0,1080) the point (1920, 0) is on the second. *)
Theorem display_containing_first (ds : list Display) (px py : Z) :
  match display_containing ds px py with
  | Some d =>
      exists i : nat,
        ds !! i = Some d
        /\ (x_start d <= px < x_end d /\ y_start d <= py < y_end d)%Z
        /\ forall (j : nat) d', (j < i)%nat -> ds !! j = Some d' ->
             ~ (x_start d' <= px < x_end d' /\ y_start d' <= py < y_end d')%Z
  | None =>
      forall d, d ∈ ds ->
        ~ (x_start d <= px < x_end d /\ y_start d <= py < y_end d)%Z
  end
  /\ display_containing
       [ display_of_match (1920, 1080, 0, 0);
         display_of_match (1920, 1080, 1920, 0) ]%Z 1920 0
     = Some {| x_start := 1920; x_end := 3840; y_start := 0; y_end := 1080;
               offset_left := 1920; offset_top := 0;
               width := 1920; height := 1080 |}.
Proof.
  split; [|reflexivity].
  destruct (display_containing ds px py) as [d|] eqn:E.
  - apply display_containing_Some in E as (i & Hi & Hc & Hfirst).
    exists i. split; [exact Hi|]. split; [apply contains_spec, Hc|].
    intros j d' Hj Hd' Hin. apply contains_spec in Hin.
    rewrite (Hfirst j d' Hj Hd') in Hin. discriminate.
  - intros d Hd Hin. apply contains_spec in Hin.
    rewrite (proj1 (display_containing_None ds px py) E d Hd) in Hin. discriminate.
Qed.

(** What [get_display_for_window] returns, without the log. *)
Lemma get_display_for_window_result (env : Env) (w : string) (c : Core) :
  (get_display_for_window env w c).1
  = Ret (match window_geometry env w with
         | None => None
         | Some (l, t) =>
             match display_containing (display_of_match <$> xrandr_matches env 0)
                     (Z.max 0 l) (Z.max 0 t) with
             | Some d => Some d
             | None => head (display_of_match <$> xrandr_matches env 1)
             end
         end).
Proof.
  unfold get_display_for_window, get_window_position, get_connected_displays.
  unfold bind, emit, ret. simpl.
  destruct (window_geometry env w) as [[l t]|]; [|reflexivity]. simpl.
  destruct (display_containing _ _ _); reflexivity.
Qed.

(** C4, as the code has it. When the window's position is known and
    the enumeration used for the fallback reports at least one display,
    a display is returned: the first one containing the position, else
    the first enumerated one. Nothing is returned when the position is
    unknown, however many displays there are, or when no display contains
    the position and none is enumerated. *)
Theorem display_for_window_fallback (env : Env) (w : string) (c : Core) :
  let r := (get_display_for_window env w c).1 in
  match window_geometry env w with
  | None => r = Ret None
  | Some (l, t) =>
      let found :=
        display_containing (display_of_match <$> xrandr_matches env 0)
          (Z.max 0 l) (Z.max 0 t) in
      (forall d, found = Some d -> r = Ret (Some d))
      /\ (found = None -> r = Ret (head (display_of_match <$> xrandr_matches env 1)))
      /\ (xrandr_matches env 1 <> [] -> exists d, r = Ret (Some d))
      /\ (r = Ret None <-> found = None /\ xrandr_matches env 1 = [])
  end.
Proof.
  intros r. subst r. rewrite get_display_for_window_result.
  destruct (window_geometry env w) as [[l t]|]; [|reflexivity].
  intros found. subst found.
  destruct (display_containing _ _ _) as [d|] eqn:E.
  - split; [intros d' [= <-]; reflexivity|].
    split; [discriminate|]. split; [eauto|].
    split; [discriminate|]. intros [? _]. discriminate.
  - split; [discriminate|]. split; [reflexivity|].
    destruct (xrandr_matches env 1) as [|m ms]; simpl.
    + split; [intros H; contradiction|]. split; auto.
    + split; [eauto|]. split; [discriminate|]. intros [_ ?]. discriminate.
Qed.

Lemma display_for_window_fallback_witness :
  exists d,
    (get_display_for_window
       {| window_focus := "0x2e00003";
          window_geometry := fun _ => Some (4000, 10);
          xrandr_matches := fun _ => [(1920, 1080, 0, 0); (1920, 1080, 1920, 0)] |}
       "0x2e00003" XlapCore_init).1 = Ret (Some d).
Proof.
  pose proof (display_for_window_fallback
       {| window_focus := "0x2e00003";
          window_geometry := fun _ => Some (4000, 10);
          xrandr_matches := fun _ => [(1920, 1080, 0, 0); (1920, 1080, 1920, 0)] |}
       "0x2e00003" XlapCore_init) as H.
  simpl in H. destruct H as (_ & _ & H & _).
  apply H. discriminate.
Defined.

(** C4 as the specification words it fails: one display is reported, the
    window's position cannot be determined, and nothing is returned. *)
Lemma display_for_window_no_position :
  ~ (forall (env : Env) (w : string) (c : Core),
       (forall i, xrandr_matches env i <> []) ->
       exists d, (get_display_for_window env w c).1 = Ret (Some d)).
Proof.
  intros H.
  destruct (H {| window_focus := "0x2e00003";
                 window_geometry := fun _ => None;
                 xrandr_matches := fun _ => [(1920, 1080, 0, 0)] |}
              "0x2e00003" XlapCore_init) as [d Hd].
  - intros i. discriminate.
  - vm_compute in Hd. discriminate.
Qed.

(** ** Applying a layout *)

Lemma fractional_in_sequence (layout : string) :
  is_Some (LAYOUT_GEOMETRY !! layout) ->
  layout <> FULL_SCREEN /\ layout <> MAXIMIZED
  /\ exists i, list_index layout LAYOUT_SEQUENCE = Some i.
Proof.
  intros [g Hg]. apply elem_of_list_to_map_2 in Hg.
  unfold LAYOUT_GEOMETRY_items in Hg.
  rewrite !elem_of_cons, elem_of_nil in Hg.
  repeat (destruct Hg as [Hg|Hg];
          [injection Hg as -> _;
           (split; [discriminate|split; [discriminate|]]);
           eexists; vm_compute; reflexivity|]).
  destruct Hg.
Qed.

(** C6. With an empty or absent window identifier [apply_layout] does
    nothing at all: the tracker and the log are as before. *)
Theorem apply_layout_no_window
    (env : Env) (cfg : Config) (layout : string) (w : option string) (c : Core) :
  w = None \/ w = Some "" ->
  apply_layout env cfg layout w c = (Ret tt, c).
Proof. intros [->| ->]; reflexivity. Qed.

Lemma apply_layout_no_window_witness :
  apply_layout
    {| window_focus := "";
       window_geometry := fun _ => Some (0, 0);
       xrandr_matches := fun _ => [(1920, 1080, 0, 0)] |}
    default_config "50% Left" (Some "")
    {| _window_state := {[ "0x2e00003" := 4%nat ]}; log := [Xrandr] |}
  = (Ret tt, {| _window_state := {[ "0x2e00003" := 4%nat ]}; log := [Xrandr] |}).
Proof.
  apply apply_layout_no_window. right. reflexivity.
Defined.

Lemma apply_fractional_no_display
    (env : Env) (cfg : Config) (layout w : string) (c : Core) :
  (forall i, xrandr_matches env i = []) ->
  apply_fractional env cfg layout w c
  = (Ret false,
     {| _window_state := _window_state c;
        log := log c
               ++ match window_geometry env w with
                  | None => [GetWindowGeometry w]
                  | Some _ => [GetWindowGeometry w; Xrandr; Xrandr]
                  end
               ++ [NotifySend "Layout Error"
                     ("Display not found for window " +:+ w)] |}).
Proof.
  intros Hnone.
  unfold apply_fractional, get_display_for_window, get_window_position,
    get_connected_displays, Notify_send.
  unfold bind, emit, ret.
  destruct (window_geometry env w) as [[l t]|].
  - rewrite !Hnone. cbn [fmap list_fmap display_containing head _window_state log].
    rewrite <- !app_assoc. reflexivity.
  - cbn [_window_state log]. rewrite <- !app_assoc. reflexivity.
Qed.

(** C5. With no display reported, applying a fractional layout to a
    usable window identifier first records the layout's index in the
    tracker, then only queries, and ends on the "Display not found"
    notification: no resize, move or state command is issued, and the
    recorded index stays. *)
Theorem apply_layout_no_display
    (env : Env) (cfg : Config) (layout w : string) (c : Core) :
  w <> "" ->
  is_Some (LAYOUT_GEOMETRY !! layout) ->
  (forall i, xrandr_matches env i = []) ->
  exists (i : nat) (queries : list Event),
    list_index layout LAYOUT_SEQUENCE = Some i
    /\ apply_layout env cfg layout (Some w) c
       = (Ret tt,
          {| _window_state := <[w := i]> (_window_state c);
             log := log c ++ SetState w i :: queries
                    ++ [NotifySend "Layout Error"
                          ("Display not found for window " +:+ w)] |})
    /\ Forall (fun ev => ev = GetWindowGeometry w \/ ev = Xrandr) queries
    /\ forallb (fun ev => negb (is_actuation ev))
         (SetState w i :: queries
          ++ [NotifySend "Layout Error" ("Display not found for window " +:+ w)])
       = true.
Proof.
  intros Hw Hfrac Hnone.
  destruct (fractional_in_sequence layout Hfrac) as (Hfs & Hmax & i & Hi).
  exists i.
  exists (match window_geometry env w with
          | None => [GetWindowGeometry w]
          | Some _ => [GetWindowGeometry w; Xrandr; Xrandr]
          end).
  split; [exact Hi|].
  split; [|split].
  - unfold apply_layout.
    assert (str_truthy (Some w) = Some w) as ->
      by (apply str_truthy_Some; auto).
    unfold recorded_index. rewrite Hi.
    destruct (decide (layout = FULL_SCREEN)) as [?|_]; [contradiction|].
    destruct (decide (layout = MAXIMIZED)) as [?|_]; [contradiction|].
    unfold bind at 1. unfold set_window_state at 1.
    unfold bind. rewrite (apply_fractional_no_display _ _ _ _ _ Hnone).
    cbn [andb ret _window_state log]. rewrite <- !app_assoc. reflexivity.
  - destruct (window_geometry env w);
      repeat (constructor; [auto|]); constructor.
  - destruct (window_geometry env w); reflexivity.
Qed.

Lemma apply_layout_no_display_witness :
  exists (i : nat) (queries : list Event),
    list_index "33% Center" LAYOUT_SEQUENCE = Some i
    /\ apply_layout
         {| window_focus := "0x2e00003";
            window_geometry := fun _ => Some (10, 10);
            xrandr_matches := fun _ => [] |}
         default_config "33% Center" (Some "0x2e00003") XlapCore_init
       = (Ret tt,
          {| _window_state := <["0x2e00003" := i]> ∅;
             log := [] ++ SetState "0x2e00003" i :: queries
                    ++ [NotifySend "Layout Error"
                          "Display not found for window 0x2e00003"] |}).
Proof.
  destruct (apply_layout_no_display
         {| window_focus := "0x2e00003";
            window_geometry := fun _ => Some (10, 10);
            xrandr_matches := fun _ => [] |}
         default_config "33% Center" "0x2e00003" XlapCore_init)
    as (i & q & H1 & H2 & _).
  - discriminate.
  - vm_compute. eauto.
  - reflexivity.
  - exists i, q. split; [exact H1|exact H2].
Defined.

(** ** Binary64 products of an integer and a table constant *)

Section Binary64.

Local Open Scope Z_scope.

Lemma iter_pos_nat {A} (f : A -> A) (p : positive) (x : A) :
  SpecFloat.iter_pos f p x = @Nat.iter (Pos.to_nat p) A f x.
Proof.
  revert x. induction p as [p IH|p IH|]; intros x; cbn [SpecFloat.iter_pos].
  - rewrite !IH, <- Nat.iter_add, <- Nat.iter_succ_r.
    f_equal. lia.
  - rewrite !IH, <- Nat.iter_add. f_equal. lia.
  - reflexivity.
Qed.

Lemma shr_1_step (M : Z) (k : Z) (mrs : shr_record) (rem : Z) :
  0 <= k -> 0 <= shr_m mrs ->
  M = shr_m mrs * 2 ^ k + rem -> 0 <= rem < 2 ^ k ->
  loc_rel k rem (shr_r mrs) (shr_s mrs) ->
  exists rem',
    0 <= shr_m (shr_1 mrs)
    /\ M = shr_m (shr_1 mrs) * 2 ^ (k + 1) + rem'
    /\ 0 <= rem' < 2 ^ (k + 1)
    /\ loc_rel (k + 1) rem' (shr_r (shr_1 mrs)) (shr_s (shr_1 mrs)).
Proof.
  intros Hk Hq HM Hrem Hloc.
  unfold loc_rel in *.
  assert (2 ^ (k + 1) = 2 * 2 ^ k) as ->
    by (rewrite Z.pow_add_r by lia; change (2 ^ 1) with 2; lia).
  destruct mrs as [q r s]. cbn [shr_m shr_r shr_s] in *.
  assert (0 < 2 ^ k) by (apply Z.pow_pos_nonneg; lia).
  destruct q as [|[p|p|]|p]; cbn [shr_1 shr_m shr_r shr_s]; [| | | |lia].
  - exists rem. unfold loc_rel in *. destruct r, s; cbn [orb]; lia.
  - exists (rem + 2 ^ k). unfold loc_rel in *. destruct r, s; cbn [orb]; lia.
  - exists rem. unfold loc_rel in *. destruct r, s; cbn [orb]; lia.
  - exists (rem + 2 ^ k). unfold loc_rel in *. destruct r, s; cbn [orb]; lia.
Qed.

Lemma shr_iter (M : Z) (n : nat) :
  0 <= M ->
  let mrs :=
    @Nat.iter n shr_record shr_1
      {| shr_m := M; shr_r := false; shr_s := false |} in
  exists rem,
    0 <= shr_m mrs
    /\ M = shr_m mrs * 2 ^ Z.of_nat n + rem
    /\ 0 <= rem < 2 ^ Z.of_nat n
    /\ loc_rel (Z.of_nat n) rem (shr_r mrs) (shr_s mrs).
Proof.
  intros HM. induction n as [|n IH].
  - exists 0. cbn [Nat.iter nat_rect shr_m shr_r shr_s loc_rel]. change (2 ^ Z.of_nat 0) with 1. lia.
  - cbv zeta in *. destruct IH as (rem & Hq & Heq & Hrem & Hloc).
    rewrite Nat2Z.inj_succ. unfold Z.succ. simpl Nat.iter.
    apply (shr_1_step M (Z.of_nat n) _ rem); auto; lia.
Qed.

Lemma digits2_pos_bounds (p : positive) :
  2 ^ (Z.pos (digits2_pos p) - 1) <= Z.pos p < 2 ^ Z.pos (digits2_pos p).
Proof.
  induction p as [p IH|p IH|]; cbn [digits2_pos].
  - rewrite Pos2Z.inj_succ. replace (Z.succ (Z.pos (digits2_pos p)) - 1)
      with (Z.succ (Z.pos (digits2_pos p) - 1)) by lia.
    rewrite !Z.pow_succ_r by lia. lia.
  - rewrite Pos2Z.inj_succ. replace (Z.succ (Z.pos (digits2_pos p)) - 1)
      with (Z.succ (Z.pos (digits2_pos p) - 1)) by lia.
    rewrite !Z.pow_succ_r by lia. lia.
  - change (2 ^ (1 - 1)) with 1. change (2 ^ 1) with 2. lia.
Qed.

Lemma digits2_pos_unique (p : positive) (D : Z) :
  2 ^ (D - 1) <= Z.pos p < 2 ^ D -> Z.pos (digits2_pos p) = D.
Proof.
  intros [Hlo Hhi]. pose proof (digits2_pos_bounds p) as [Blo Bhi].
  assert (0 < D).
  { destruct (Z_lt_le_dec 0 D) as [?|Hle]; [assumption|].
    assert (2 ^ D <= 2 ^ 0) by (apply Z.pow_le_mono_r; lia).
    change (2 ^ 0) with 1 in *. lia. }
  assert (D - 1 < Z.pos (digits2_pos p)).
  { apply (Z.pow_lt_mono_r_iff 2); lia. }
  assert (Z.pos (digits2_pos p) - 1 < D).
  { apply (Z.pow_lt_mono_r_iff 2); lia. }
  lia.
Qed.

Lemma shr_pos (M : Z) (e : Z) (s : positive) :
  0 <= M ->
  exists q r st rem,
    shr {| shr_m := M; shr_r := false; shr_s := false |} e (Z.pos s)
    = ({| shr_m := q; shr_r := r; shr_s := st |}, e + Z.pos s)
    /\ 0 <= q /\ M = q * 2 ^ Z.pos s + rem /\ 0 <= rem < 2 ^ Z.pos s
    /\ loc_rel (Z.pos s) rem r st.
Proof.
  intros HM. cbn [shr]. rewrite iter_pos_nat.
  destruct (shr_iter M (Pos.to_nat s) HM) as (rem & Hq & Heq & Hrem & Hloc).
  rewrite positive_nat_Z in *.
  destruct (@Nat.iter _ _ _ _) as [q r st]. cbn [shr_m shr_r shr_s] in *.
  exists q, r, st, rem. auto.
Qed.

Lemma round_nearest_even_rne (M s q rem : Z) (r st : bool) :
  0 < s -> M = q * 2 ^ s + rem -> 0 <= rem < 2 ^ s -> loc_rel s rem r st ->
  rne M s (round_nearest_even q (loc_of_shr_record {| shr_m := q; shr_r := r; shr_s := st |}))
  /\ q <= round_nearest_even q (loc_of_shr_record {| shr_m := q; shr_r := r; shr_s := st |}) <= q + 1.
Proof.
  intros Hs HM Hrem Hloc. unfold rne.
  assert (0 < 2 ^ s) by (apply Z.pow_pos_nonneg; lia).
  destruct r, st; unfold loc_rel in Hloc; cbn [loc_of_shr_record round_nearest_even].
  - split; [|lia]. exists q, rem. repeat split; try lia.
  - destruct (Z.even q) eqn:Ev.
    + split; [|lia]. exists q, rem. repeat split; try lia. right. right. auto.
    + split; [|lia]. exists q, rem. repeat split; try lia. right. right.
      split; [lia|]. split; [|auto].
      rewrite Z.even_add, Ev. reflexivity.
  - split; [|lia]. exists q, rem. repeat split; try lia.
  - split; [|lia]. exists q, rem. repeat split; try lia.
Qed.

Lemma binary_round_aux_rne (sx : bool) (M : positive) (E D : Z) :
  Z.pos (digits2_pos M) = D ->
  53 < D -> -1074 <= D + E - 53 -> D + E - 53 < 971 ->
  exists m' e' R,
    binary_round_aux 53 1024 sx (Z.pos M) E loc_Exact = S754_finite sx m' e'
    /\ rne (Z.pos M) (D - 53) R
    /\ ((R < 2 ^ 53 /\ Z.pos m' = R /\ e' = E + (D - 53))
        \/ (R = 2 ^ 53 /\ Z.pos m' = 2 ^ 52 /\ e' = E + (D - 53) + 1)).
Proof.
  intros HD Hbig Hlo Hhi.
  unfold binary_round_aux, shr_fexp. cbn [Zdigits2 shr_record_of_loc].
  rewrite HD.
  assert (fexp 53 1024 (D + E) - E = D - 53) as ->.
  { unfold fexp, emin. lia. }
  destruct (D - 53) as [|s|s] eqn:Es; try lia.
  destruct (shr_pos (Z.pos M) E s ltac:(lia)) as (q & r & st & rem & -> & Hq & HM & Hrem & Hloc).
  cbn [shr_m].
  destruct (round_nearest_even_rne (Z.pos M) (Z.pos s) q rem r st ltac:(lia) HM Hrem Hloc)
    as [Hrne HR].
  set (R := round_nearest_even q _) in *.
  pose proof (digits2_pos_bounds M) as HB. rewrite HD in HB.
  assert (2 ^ 52 <= q < 2 ^ 53) as Hqb.
  { assert (D = Z.pos s + 53) as HD' by lia. rewrite HD' in HB.
    replace (Z.pos s + 53 - 1) with (Z.pos s + 52) in HB by lia.
    rewrite !Z.pow_add_r in HB by lia.
    assert (0 < 2 ^ Z.pos s) by (apply Z.pow_pos_nonneg; lia).
    split; nia. }
  destruct (Z_lt_le_dec R (2 ^ 53)) as [Hlt|Hge].
  - assert (exists pr, R = Z.pos pr) as [pr HRp].
    { destruct R as [|pr|pr]; try lia. eauto. }
    rewrite HRp. cbn [Zdigits2].
    assert (Z.pos (digits2_pos pr) = 53) as ->.
    { apply digits2_pos_unique. change (53 - 1) with 52. lia. }
    assert (fexp 53 1024 (53 + (E + Z.pos s)) - (E + Z.pos s) = 0) as ->.
    { unfold fexp, emin. lia. }
    cbn [shr shr_m].
    assert ((E + Z.pos s <=? 1024 - 53) = true) as -> by (apply Z.leb_le; lia).
    exists pr, (E + Z.pos s), R. split; [reflexivity|]. split; [exact Hrne|].
    left. lia.
  - assert (R = 2 ^ 53) as HR53 by lia.
    rewrite HR53.
    change (2 ^ 53) with (Z.pos (2 ^ 53)%positive) at 1 2. cbn [Zdigits2].
    change (Z.pos (digits2_pos (2 ^ 53))) with 54.
    assert (fexp 53 1024 (54 + (E + Z.pos s)) - (E + Z.pos s) = 1) as ->.
    { unfold fexp, emin. lia. }
    cbn [shr]. 
    change (shr_m (SpecFloat.iter_pos shr_1 1 {| shr_m := Z.pos (2 ^ 53); shr_r := false; shr_s := false |}))
      with (Z.pos (2 ^ 52)%positive).
    cbv beta iota.
    assert ((E + Z.pos s + 1 <=? 1024 - 53) = true) as -> by (apply Z.leb_le; lia).
    exists (2 ^ 52)%positive, (E + Z.pos s + 1), R. split; [reflexivity|].
    split; [exact Hrne|]. right. split; [exact HR53|]. split; [reflexivity|lia].
Qed.

Lemma binary_round_aux_exact (sx : bool) (m : positive) (e : Z) :
  Z.pos (digits2_pos m) = 53 -> -1074 <= e <= 971 ->
  binary_round_aux 53 1024 sx (Z.pos m) e loc_Exact = S754_finite sx m e.
Proof.
  intros Hd He. unfold binary_round_aux, shr_fexp.
  cbn [Zdigits2 shr_record_of_loc]. rewrite Hd.
  assert (fexp 53 1024 (53 + e) - e = 0) as -> by (unfold fexp, emin; lia).
  cbn [shr shr_m loc_of_shr_record round_nearest_even Zdigits2 shr_record_of_loc].
  rewrite Hd.
  assert (fexp 53 1024 (53 + e) - e = 0) as -> by (unfold fexp, emin; lia).
  cbn [shr shr_m].
  assert ((e <=? 1024 - 53) = true) as -> by (apply Z.leb_le; lia).
  reflexivity.
Qed.

Lemma iter_xO_pow (p k : positive) :
  Z.pos (Pos.iter xO p k) = Z.pos p * 2 ^ Z.pos k.
Proof.
  induction k as [|k IH] using Pos.peano_ind.
  - cbn [Pos.iter]. change (2 ^ 1) with 2. lia.
  - rewrite Pos.iter_succ, Pos2Z.inj_succ, Z.pow_succ_r by lia.
    rewrite Pos2Z.inj_xO, IH. lia.
Qed.

(** [float(n)] for a non-zero [n] of at most 53 bits: the mantissa is [|n|]
    shifted up to exactly 53 bits. *)
Lemma binary_round_small (sx : bool) (p : positive) :
  Z.pos p < 2 ^ 53 ->
  exists m,
    binary_round 53 1024 sx p 0
    = S754_finite sx m (Z.pos (digits2_pos p) - 53)
    /\ Z.pos m = Z.pos p * 2 ^ (53 - Z.pos (digits2_pos p))
    /\ Z.pos (digits2_pos m) = 53.
Proof.
  intros Hp. pose proof (digits2_pos_bounds p) as HB.
  set (d := Z.pos (digits2_pos p)) in *.
  assert (0 < d <= 53) as Hd.
  { split; [unfold d; lia|].
    destruct (Z_lt_le_dec 53 d) as [Hlt|?]; [|assumption].
    assert (2 ^ 53 <= 2 ^ (d - 1)) by (apply Z.pow_le_mono_r; lia). lia. }
  unfold binary_round. fold d.
  assert (fexp 53 1024 (d + 0) = d - 53) as -> by (unfold fexp, emin; lia).
  unfold shl_align.
  destruct (d - 53 - 0) as [|k|k] eqn:Ek; try lia.
  - assert (d = 53) as Hd53 by lia.
    exists p. rewrite binary_round_aux_exact by (fold d; lia).
    rewrite Hd53. change (2 ^ (53 - 53)) with 1. fold d.
    split; [reflexivity|]. split; lia.
  - assert (53 - d = Z.pos k) as Hk by lia.
    assert (Z.pos (digits2_pos (Pos.iter xO p k)) = 53) as Hdig.
    { apply digits2_pos_unique. rewrite iter_xO_pow, <- Hk.
      change (53 - 1) with 52.
      assert (2 ^ 52 = 2 ^ (d - 1) * 2 ^ (53 - d)) as ->
        by (rewrite <- Z.pow_add_r by lia; f_equal; lia).
      assert (2 ^ 53 = 2 ^ d * 2 ^ (53 - d)) as ->
        by (rewrite <- Z.pow_add_r by lia; f_equal; lia).
      assert (0 < 2 ^ (53 - d)) by (apply Z.pow_pos_nonneg; lia).
      split; nia. }
    exists (Pos.iter xO p k).
    rewrite binary_round_aux_exact by (try exact Hdig; lia).
    rewrite iter_xO_pow, Hk. auto.
Qed.

Lemma third_core (n P s R : Z) :
  0 < n -> 1 <= P ->
  2 ^ 52 <= n * P < 2 ^ 53 ->
  2 ^ (s + 52) <= n * P * 6004799503160661 < 2 ^ (s + 53) ->
  s = 52 \/ s = 53 ->
  rne (n * P * 6004799503160661) s R ->
  0 <= 54 - s /\ R / (2 ^ (54 - s) * P) = n * 1 / 3.
Proof.
  intros Hn HP Ht HM Hs (q & rem & Heq & Hrem & HR).
  split; [lia|].
  rewrite Z.mul_1_r.
  pose proof (Z.div_mod n 3 ltac:(lia)) as Hn3.
  pose proof (Z.mod_pos_bound n 3 ltac:(lia)) as Hr.
  set (k := n / 3) in *. set (r := n mod 3) in *.
  symmetry. 
  assert (Z.even R = true -> exists R2, R = 2 * R2) as Hev.
  { intros He. apply Z.even_spec in He. exact He. }
  destruct Hs as [-> | ->].
  - change (2 ^ (54 - 52)) with 4. change (2 ^ (52 + 52)) with (2 ^ 104) in HM.
    change (2 ^ (52 + 53)) with (2 ^ 105) in HM.
    apply (Z.div_unique_pos R (4 * P) k (R - 4 * P * k)); [|lia].
    assert (r = 0 \/ r = 1 \/ r = 2) as Hcase by lia.
    rewrite Hn3 in *. clearbody k r. 
    destruct Hcase as [-> | [-> | ->]];
      (destruct HR as [[? ->] | [[? ->] | (? & He & HRq)]];
       [| | destruct (Hev He) as [R2 ->]; destruct HRq]); lia.
  - change (2 ^ (54 - 53)) with 2. change (2 ^ (53 + 52)) with (2 ^ 105) in HM.
    change (2 ^ (53 + 53)) with (2 ^ 106) in HM.
    apply (Z.div_unique_pos R (2 * P) k (R - 2 * P * k)); [|lia].
    assert (r = 0 \/ r = 1 \/ r = 2) as Hcase by lia.
    rewrite Hn3 in *. clearbody k r. 
    destruct Hcase as [-> | [-> | ->]];
      (destruct HR as [[? ->] | [[? ->] | (? & He & HRq)]];
       [| | destruct (Hev He) as [R2 ->]; destruct HRq]); lia.
Qed.

Lemma two_thirds_core (n P s R : Z) :
  0 < n -> 2 <= P ->
  2 ^ 52 <= n * P < 2 ^ 53 ->
  2 ^ (s + 52) <= n * P * 6004799503160661 < 2 ^ (s + 53) ->
  s = 52 \/ s = 53 ->
  rne (n * P * 6004799503160661) s R ->
  0 <= 53 - s /\ R / (2 ^ (53 - s) * P) = n * 2 / 3.
Proof.
  intros Hn HP Ht HM Hs (q & rem & Heq & Hrem & HR).
  split; [lia|].
  pose proof (Z.div_mod (n * 2) 3 ltac:(lia)) as Hn3.
  pose proof (Z.mod_pos_bound (n * 2) 3 ltac:(lia)) as Hr.
  set (k := n * 2 / 3) in *. set (r := (n * 2) mod 3) in *.
  symmetry.
  assert (Z.even R = true -> exists R2, R = 2 * R2) as Hev.
  { intros He. apply Z.even_spec in He. exact He. }
  assert (r = 0 \/ r = 1 \/ r = 2) as Hcase by lia.
  clearbody k r.
  assert (2 * (n * P) = 3 * (k * P) + r * P) as HnP
    by (replace (2 * (n * P)) with (n * 2 * P) by ring; rewrite Hn3; ring).
  set (t := n * P) in *. clearbody t.
  destruct Hs as [-> | ->].
  - change (2 ^ (53 - 52)) with 2. change (2 ^ (52 + 52)) with (2 ^ 104) in HM.
    change (2 ^ (52 + 53)) with (2 ^ 105) in HM.
    apply (Z.div_unique_pos R (2 * P) k (R - 2 * (k * P))); [|ring].
    set (kP := k * P) in *. clearbody kP.
    destruct Hcase as [-> | [-> | ->]];
      (destruct HR as [[? ->] | [[? ->] | (? & He & HRq)]];
       [| | destruct (Hev He) as [R2 ->]; destruct HRq]); lia.
  - change (2 ^ (53 - 53)) with 1. change (2 ^ (53 + 52)) with (2 ^ 105) in HM.
    change (2 ^ (53 + 53)) with (2 ^ 106) in HM.
    apply (Z.div_unique_pos R (1 * P) k (R - k * P)); [|ring].
    set (kP := k * P) in *. clearbody kP.
    destruct Hcase as [-> | [-> | ->]];
      (destruct HR as [[? ->] | [[? ->] | (? & He & HRq)]];
       [| | destruct (Hev He) as [R2 ->]; destruct HRq]); lia.
Qed.

Lemma third_core_ok : core_ok 6004799503160661 (-54) 1 3.
Proof.
  intros n P s R Hn HP Ht HM Hs HR.
  replace (- -54 - s) with (54 - s) by lia.
  apply third_core; auto; lia.
Qed.

Lemma two_thirds_core_ok : core_ok 6004799503160661 (-53) 2 3.
Proof.
  intros n P s R Hn HP Ht HM Hs HR.
  replace (- -53 - s) with (53 - s) by lia.
  apply two_thirds_core; auto.
Qed.

Lemma half_core_ok : core_ok 4503599627370496 (-53) 1 2.
Proof.
  intros n P s R Hn HP Ht HM Hs (q & rem & Heq & Hrem & HR).
  set (t := n * P) in *.
  assert (s = 52) as ->.
  { destruct Hs as [-> | ->]; [reflexivity|].
    change (2 ^ (53 + 52)) with (2 ^ 105) in HM. clearbody t. lia. }
  change (- -53 - 52) with 1. change (2 ^ 1) with 2.
  split; [lia|].
  assert (R = t) as -> by (clearbody t; lia).
  unfold t. rewrite Z.mul_1_r. apply Z.div_mul_cancel_r; lia.
Qed.

Lemma one_core_ok : core_ok 4503599627370496 (-52) 1 1.
Proof.
  intros n P s R Hn HP Ht HM Hs (q & rem & Heq & Hrem & HR).
  set (t := n * P) in *.
  assert (s = 52) as ->.
  { destruct Hs as [-> | ->]; [reflexivity|].
    change (2 ^ (53 + 52)) with (2 ^ 105) in HM. clearbody t. lia. }
  change (- -52 - 52) with 0. change (2 ^ 0) with 1.
  split; [lia|].
  assert (R = t) as -> by (clearbody t; lia).
  unfold t. rewrite Z.mul_1_r, Z.mul_1_l, Z.div_1_r. apply Z.div_mul; lia.
Qed.

Lemma mul_to_int (sx : bool) (p c : positive) (ec a b : Z) :
  Z.pos p < 2 ^ 52 ->
  Z.pos (digits2_pos c) = 53 ->
  -60 <= ec <= -52 ->
  core_ok (Z.pos c) ec a b ->
  PyFloat.to_int
    (SFmul 53 1024 (binary_round 53 1024 sx p 0) (S754_finite false c ec))
  = Ret (if sx then - (Z.pos p * a / b) else Z.pos p * a / b).
Proof.
  intros Hp Hc Hec Hcore.
  destruct (binary_round_small sx p ltac:(lia)) as (m & -> & Hm & Hmd).
  pose proof (digits2_pos_bounds p) as Hpb.
  set (d := Z.pos (digits2_pos p)) in *.
  assert (0 < d <= 52) as Hd.
  { split; [unfold d; lia|].
    destruct (Z_lt_le_dec 52 d) as [Hlt|?]; [|assumption].
    assert (2 ^ 52 <= 2 ^ (d - 1)) by (apply Z.pow_le_mono_r; lia). lia. }
  set (P := 2 ^ (53 - d)) in *.
  assert (2 <= P) as HP.
  { unfold P. change 2 with (2 ^ 1) at 1. apply Z.pow_le_mono_r; lia. }
  pose proof (digits2_pos_bounds m) as Hmb. rewrite Hmd in Hmb.
  change (53 - 1) with 52 in Hmb.
  pose proof (digits2_pos_bounds c) as Hcb. rewrite Hc in Hcb.
  change (53 - 1) with 52 in Hcb.
  cbn [SFmul xorb]. rewrite xorb_false_r.
  pose proof (digits2_pos_bounds (m * c)) as HMb.
  set (D := Z.pos (digits2_pos (m * c))) in *.
  rewrite Pos2Z.inj_mul in HMb.
  assert (2 ^ 104 <= Z.pos m * Z.pos c < 2 ^ 106) as HM.
  { change (2 ^ 104) with (2 ^ 52 * 2 ^ 52). change (2 ^ 106) with (2 ^ 53 * 2 ^ 53).
    split; nia. }
  assert (D = 105 \/ D = 106) as HD.
  { assert (104 < D) by (apply (Z.pow_lt_mono_r_iff 2); lia).
    assert (D - 1 < 106) by (apply (Z.pow_lt_mono_r_iff 2); lia).
    lia. }
  destruct (binary_round_aux_rne sx (m * c) (d - 53 + ec) D eq_refl
              ltac:(lia) ltac:(lia) ltac:(lia))
    as (m' & e' & R & -> & Hrne & Hfin).
  rewrite Pos2Z.inj_mul, Hm in Hrne.
  rewrite Hm in HMb, Hmb. fold P in Hrne, HMb, Hmb.
  destruct (Hcore (Z.pos p) P (D - 53) R ltac:(lia) HP Hmb) as [Hs HR]; auto.
  { replace (D - 53 + 52) with (D - 1) by lia.
    replace (D - 53 + 53) with D by lia. exact HMb. }
  { lia. }
  assert (2 ^ (- (d - 53 + ec + (D - 53))) = 2 ^ (- ec - (D - 53)) * P) as HW.
  { unfold P. rewrite <- Z.pow_add_r by lia. f_equal. lia. }
  assert (0 < 2 ^ (- ec - (D - 53)) * P) as HWpos.
  { apply Z.mul_pos_pos; [apply Z.pow_pos_nonneg|]; lia. }
  unfold PyFloat.to_int.
  assert (Z.pos m' / 2 ^ (- e') = R / (2 ^ (- ec - (D - 53)) * P)
          /\ (e' = 0 -> Z.pos m' = R / (2 ^ (- ec - (D - 53)) * P))) as [Hneg Hzero].
  { rewrite <- HW.
    destruct Hfin as [(HRlt & -> & ->) | (HR53 & Hm' & ->)].
    - split; [reflexivity|]. lia.
    - rewrite Hm', HR53.
      set (x := d - 53 + ec + (D - 53)) in *.
      assert (x <= -1) by (unfold x; lia).
      replace (- x) with (- (x + 1) + 1) by lia.
      rewrite Z.pow_add_r by lia. change (2 ^ 1) with 2.
      rewrite (Z.mul_comm (2 ^ (- (x + 1))) 2), <- Z.div_div by
        (try apply Z.pow_pos_nonneg; lia).
      change (2 ^ 53 / 2) with (2 ^ 52). split; [reflexivity|].
      intros ->. change (2 ^ (- 0)) with 1. rewrite Z.div_1_r. reflexivity. }
  assert (e' <= 0) as He' by (destruct Hfin as [(_ & _ & ->) | (_ & _ & ->)]; lia).
  destruct (0 <=? e') eqn:Ele.
  - apply Z.leb_le in Ele. assert (e' = 0) as He0 by lia.
    rewrite He0 in *. change (2 ^ 0) with 1. rewrite Z.mul_1_r.
    rewrite (Hzero eq_refl), HR. reflexivity.
  - rewrite Hneg, HR. reflexivity.
Qed.

Lemma int_of_product_exact (c : positive) (ec a b : Z) (n : Z) :
  Z.pos (digits2_pos c) = 53 ->
  -60 <= ec <= -52 ->
  core_ok (Z.pos c) ec a b ->
  0 <= a -> 0 < b ->
  Z.abs n < 2 ^ 52 ->
  int_of_product n (S754_finite false c ec) = Ret (Z.quot (n * a) b).
Proof.
  intros Hc Hec Hcore Ha Hb Hn.
  unfold int_of_product, PyFloat.int_mul, PyFloat.of_int.
  unfold PyFloat.prec, PyFloat.emax.
  destruct n as [|p|p]; cbn [binary_normalize].
  - reflexivity.
  - destruct (binary_round_small false p ltac:(lia)) as (m & Hbr & _).
    pose proof (mul_to_int false p c ec a b ltac:(lia) Hc Hec Hcore) as H.
    rewrite Hbr in *. rewrite H.
    rewrite Z.quot_div_nonneg by lia. reflexivity.
  - destruct (binary_round_small true p ltac:(lia)) as (m & Hbr & _).
    pose proof (mul_to_int true p c ec a b ltac:(lia) Hc Hec Hcore) as H.
    rewrite Hbr in *. rewrite H.
    change (Z.neg p) with (- Z.pos p).
    rewrite Z.mul_opp_l, Z.quot_opp_l by lia.
    rewrite Z.quot_div_nonneg by lia. reflexivity.
Qed.

End Binary64.

(** ** Pixel geometry *)

Section Geometry.

Local Open Scope Z_scope.

(** Every entry of [LAYOUT_GEOMETRY] is the double nearest to the
    fraction its literal denotes. *)
Lemma geometry_is_rounded_fractions :
  LAYOUT_GEOMETRY_items = rounded_entry <$> catalog_fractions.
Proof. vm_compute. reflexivity. Qed.

Lemma catalog_fractions_in_table :
  forallb (fun e : string * (Q * Q * Q * Q) =>
             let '(_, (x, y, w, h)) := e in
             table_fraction x && table_fraction y
             && table_fraction w && table_fraction h)
    catalog_fractions = true.
Proof. vm_compute. reflexivity. Qed.

Lemma geometry_keys_NoDup : NoDup (LAYOUT_GEOMETRY_items.*1).
Proof.
  apply (bool_decide_unpack (NoDup (LAYOUT_GEOMETRY_items.*1))).
  vm_compute. reflexivity.
Qed.

Lemma of_int_finite (n : Z) :
  Z.abs n < 2 ^ 52 ->
  exists f, PyFloat.of_int n = Ret f
    /\ match f with S754_zero _ | S754_finite _ _ _ => True | _ => False end.
Proof.
  intros Hn. unfold PyFloat.of_int, PyFloat.prec, PyFloat.emax.
  destruct n as [|p|p]; cbn [binary_normalize].
  - eexists. split; [reflexivity|exact I].
  - destruct (binary_round_small false p ltac:(lia)) as (m & -> & _).
    eexists. split; [reflexivity|exact I].
  - destruct (binary_round_small true p ltac:(lia)) as (m & -> & _).
    eexists. split; [reflexivity|exact I].
Qed.

Lemma int_of_product_zero (n : Z) :
  Z.abs n < 2 ^ 52 -> int_of_product n (S754_zero false) = Ret 0.
Proof.
  intros Hn. unfold int_of_product, PyFloat.int_mul.
  destruct (of_int_finite n Hn) as (f & -> & Hf).
  destruct f; try contradiction; reflexivity.
Qed.

(** [int(n * f)] is the exact product truncated toward zero, for each
    of the five constants of the table and every [n] below [2^52] in
    absolute value. *)
Lemma int_of_product_fraction (n : Z) (q : Q) :
  table_fraction q = true ->
  Z.abs n < 2 ^ 52 ->
  int_of_product n (float_of_fraction q) = Ret (Qtrunc (inject_Z n * q)).
Proof.
  intros Hq Hn. destruct q as [a b]. unfold table_fraction in Hq.
  rewrite !orb_true_iff, !andb_true_iff, !Z.eqb_eq, !Pos.eqb_eq in Hq.
  unfold Qtrunc, Qmult, inject_Z. cbn [Qnum Qden Pos.mul].
  destruct Hq as [[[[[-> ->]|[-> ->]]|[-> ->]]|[-> ->]]|[-> ->]].
  - change (float_of_fraction (0 # 1)) with (S754_zero false).
    rewrite int_of_product_zero by exact Hn.
    rewrite Z.mul_0_r. reflexivity.
  - change (float_of_fraction (1 # 2))
      with (S754_finite false 4503599627370496 (-53)).
    apply int_of_product_exact;
      [reflexivity|lia|apply half_core_ok|lia|lia|exact Hn].
  - change (float_of_fraction (1 # 1))
      with (S754_finite false 4503599627370496 (-52)).
    apply int_of_product_exact;
      [reflexivity|lia|apply one_core_ok|lia|lia|exact Hn].
  - change (float_of_fraction (1 # 3))
      with (S754_finite false 6004799503160661 (-54)).
    apply int_of_product_exact;
      [reflexivity|lia|apply third_core_ok|lia|lia|exact Hn].
  - change (float_of_fraction (2 # 3))
      with (S754_finite false 6004799503160661 (-53)).
    apply int_of_product_exact;
      [reflexivity|lia|apply two_thirds_core_ok|lia|lia|exact Hn].
Qed.

Lemma Qtrunc_floor_nonneg (n : Z) (q : Q) :
  table_fraction q = true -> 0 <= n ->
  Qtrunc (inject_Z n * q) = Qfloor (inject_Z n * q).
Proof.
  intros Hq Hn. destruct q as [a b]. unfold table_fraction in Hq.
  rewrite !orb_true_iff, !andb_true_iff, !Z.eqb_eq, !Pos.eqb_eq in Hq.
  unfold Qtrunc, Qfloor, Qmult, inject_Z. cbn [Qnum Qden Pos.mul].
  apply Z.quot_div_nonneg; [|lia].
  destruct Hq as [[[[[-> _]|[-> _]]|[-> _]]|[-> _]]|[-> _]]; lia.
Qed.

Lemma catalog_entry_fractions (layout : string) (x y w h : Q) :
  (layout, (x, y, w, h)) ∈ catalog_fractions ->
  table_fraction x = true /\ table_fraction y = true
  /\ table_fraction w = true /\ table_fraction h = true.
Proof.
  intros Hin. pose proof catalog_fractions_in_table as H.
  rewrite forallb_forall in H. apply list_elem_of_In in Hin.
  specialize (H _ Hin). cbv beta iota in H.
  rewrite !andb_true_iff in H. tauto.
Qed.

Lemma catalog_entry_geometry (layout : string) (x y w h : Q) :
  (layout, (x, y, w, h)) ∈ catalog_fractions ->
  LAYOUT_GEOMETRY !! layout
  = Some (float_of_fraction x, float_of_fraction y,
          float_of_fraction w, float_of_fraction h).
Proof.
  intros Hin. apply elem_of_list_to_map_1; [apply geometry_keys_NoDup|].
  rewrite geometry_is_rounded_fractions.
  apply (list_elem_of_fmap_2 rounded_entry) in Hin. exact Hin.
Qed.

End Geometry.

Section Bounds.

Local Open Scope Z_scope.

Lemma get_display_for_window_run (env : Env) (w : string) (c : Core) :
  get_display_for_window env w c
  = (Ret (display_found env w),
     {| _window_state := _window_state c;
        log := log c ++ display_queries env w |}).
Proof.
  unfold get_display_for_window, get_window_position, get_connected_displays,
    display_found, display_queries.
  unfold bind, emit, ret.
  destruct (window_geometry env w) as [[l t]|]; [|reflexivity].
  cbn [_window_state log].
  destruct (display_containing _ _ _);
    cbn [_window_state log]; rewrite <- !app_assoc; reflexivity.
Qed.

(** What [apply_layout] logs when a display is found and the bounds
    compute: the tracker write, the queries, then the three actuator
    calls with exactly the computed bounds. *)
Lemma apply_layout_issues_bounds
    (env : Env) (cfg : Config) (layout w : string) (c : Core)
    (display : Display) (geom : Geom) (W H L T : Z) :
  w <> ""%string ->
  layout <> FULL_SCREEN -> layout <> MAXIMIZED ->
  display_found env w = Some display ->
  LAYOUT_GEOMETRY !! layout = Some geom ->
  layout_bounds cfg display geom = Ret (W, H, L, T) ->
  apply_layout env cfg layout (Some w) c
  = (Ret tt,
     {| _window_state := <[w := recorded_index layout]> (_window_state c);
        log := log c
               ++ SetState w (recorded_index layout) :: display_queries env w
               ++ [ WindowState w "--remove"
                      "fullscreen,maximized_vert,maximized_horz";
                    WindowSize w W H;
                    WindowMove w L T ]
               ++ (if notify_on_apply_layout cfg
                   then [NotifySend layout ""] else []) |}).
Proof.
  intros Hw Hfs Hmax Hd Hg Hb. unfold apply_layout.
  assert (str_truthy (Some w) = Some w) as ->
    by (apply str_truthy_Some; auto).
  destruct (decide (layout = FULL_SCREEN)) as [?|_]; [contradiction|].
  destruct (decide (layout = MAXIMIZED)) as [?|_]; [contradiction|].
  unfold bind at 1. unfold set_window_state at 1.
  unfold apply_fractional.
  unfold bind at 1. unfold bind at 1.
  rewrite get_display_for_window_run, Hd, Hg.
  unfold bind at 1. unfold lift at 1. rewrite Hb.
  unfold _set_window_state, Notify_send, bind, emit, ret.
  cbn [_window_state log andb].
  destruct (notify_on_apply_layout cfg); cbn [_window_state log];
    rewrite <- ?app_assoc; cbn [app]; rewrite ?app_nil_r; reflexivity.
Qed.

(** C3, as the code has it. For every fractional layout with catalog
    fractions [(x, y, w, h)], every display and every margin
    configuration whose usable width and height stay below [2^52] in
    absolute value, the bounds are
    [width = trunc(usableWidth * w) - window_margin_left],
    [height = trunc(usableHeight * h) - window_margin_top],
    [left = offset_left + trunc(usableWidth * x) + window_margin_left],
    [top = offset_top + trunc(usableHeight * y) + window_margin_top],
    where [trunc] rounds toward zero, with no clamping; when the usable
    dimensions are not negative [trunc] is [floor]; with all margins
    zero "50% Left" gives [(W / 2, H)] at [(offset_left, offset_top)];
    and these are the numbers handed to the resize and move commands. *)
Theorem layout_bounds_exact
    (layout : string) (x y w h : Q) (display : Display) (cfg : Config) :
  (layout, (x, y, w, h)) ∈ catalog_fractions ->
  Z.abs (width display - screen_margin_right cfg) < 2 ^ 52 ->
  Z.abs (height display - screen_margin_bottom cfg) < 2 ^ 52 ->
  exists geom,
    LAYOUT_GEOMETRY !! layout = Some geom
    /\ layout_bounds cfg display geom
       = Ret (Qtrunc (inject_Z (width display - screen_margin_right cfg) * w)
                - window_margin_left cfg,
              Qtrunc (inject_Z (height display - screen_margin_bottom cfg) * h)
                - window_margin_top cfg,
              offset_left display
                + Qtrunc (inject_Z (width display - screen_margin_right cfg) * x)
                + window_margin_left cfg,
              offset_top display
                + Qtrunc (inject_Z (height display - screen_margin_bottom cfg) * y)
                + window_margin_top cfg)
    /\ (0 <= width display - screen_margin_right cfg ->
        0 <= height display - screen_margin_bottom cfg ->
        layout_bounds cfg display geom
        = Ret (spec_bounds_floor display cfg (x, y, w, h)))
    /\ (layout = "50% Left"%string ->
        window_margin_top cfg = 0 -> window_margin_left cfg = 0 ->
        screen_margin_bottom cfg = 0 -> screen_margin_right cfg = 0 ->
        0 <= width display -> 0 <= height display ->
        layout_bounds cfg display geom
        = Ret (width display / 2, height display,
               offset_left display, offset_top display))
    /\ (forall env win c,
          win <> ""%string -> display_found env win = Some display ->
          exists W H L T,
            layout_bounds cfg display geom = Ret (W, H, L, T)
            /\ WindowSize win W H ∈ log (apply_layout env cfg layout (Some win) c).2
            /\ WindowMove win L T ∈ log (apply_layout env cfg layout (Some win) c).2).
Proof.
  intros Hin Hw Hh.
  destruct (catalog_entry_fractions _ _ _ _ _ Hin) as (Fx & Fy & Fw & Fh).
  pose proof (catalog_entry_geometry _ _ _ _ _ Hin) as Hg.
  eexists. split; [exact Hg|].
  assert (layout_bounds cfg display
            (float_of_fraction x, float_of_fraction y,
             float_of_fraction w, float_of_fraction h)
          = Ret (trunc_bounds display cfg (x, y, w, h))) as Hb.
  { unfold layout_bounds.
    rewrite !int_of_product_fraction by assumption. reflexivity. }
  split; [exact Hb|]. split; [|split].
  - intros Hw0 Hh0. rewrite Hb. unfold trunc_bounds, spec_bounds_floor, exact_bounds.
    rewrite !Qtrunc_floor_nonneg by assumption. reflexivity.
  - intros -> Ht Hl Hbm Hr Hw0 Hh0.
    assert ((x, y, w, h) = (0 # 1, 0 # 1, 1 # 2, 1 # 1)%Q) as Hxy.
    { pose proof (catalog_entry_geometry _ _ _ _ _ Hin) as H1.
      unfold catalog_fractions in Hin.
      rewrite !elem_of_cons, elem_of_nil in Hin.
      repeat (destruct Hin as [Hin|Hin];
              [first [ discriminate Hin
                     | injection Hin as -> -> -> ->; reflexivity ]|]).
      destruct Hin. }
    injection Hxy as -> -> -> ->.
    rewrite Hb. unfold trunc_bounds, exact_bounds.
    rewrite Ht, Hl, Hbm, Hr, !Z.sub_0_r, !Z.add_0_r.
    unfold Qtrunc, Qmult, inject_Z. cbv [Qnum Qden Pos.mul].
    rewrite !Z.mul_0_r, !Z.mul_1_r. change (0 ÷ 1) with 0.
    rewrite !Z.add_0_r, !Z.quot_div_nonneg by lia.
    rewrite Z.div_1_r. reflexivity.
  - intros env win c Hwin Hd.
    destruct (trunc_bounds display cfg (x, y, w, h)) as [[[W H] L] T] eqn:Etb.
    exists W, H, L, T. split; [exact Hb|].
    destruct (fractional_in_sequence layout) as (Hfs & Hmax & _);
      [eexists; exact Hg|].
    rewrite (apply_layout_issues_bounds env cfg layout win c display _ W H L T
               Hwin Hfs Hmax Hd Hg Hb).
    cbn [snd log]. rewrite !elem_of_app, !elem_of_cons, !elem_of_app, !elem_of_cons.
    split; auto 12.
Qed.

Lemma layout_bounds_exact_witness :
  exists geom,
    LAYOUT_GEOMETRY !! "33% Center"%string = Some geom
    /\ layout_bounds default_config (display_of_match (1920, 1080, 0, 0)) geom
       = Ret (600, 1020, 660, 30).
Proof.
  destruct (layout_bounds_exact "33% Center" (1 # 3) (0 # 1) (1 # 3) (1 # 1)
              (display_of_match (1920, 1080, 0, 0)) default_config)
    as (geom & Hg & Hb & _).
  - unfold catalog_fractions. repeat constructor.
  - vm_compute. reflexivity.
  - vm_compute. reflexivity.
  - exists geom. split; [exact Hg|]. rewrite Hb. reflexivity.
Defined.

(** C3 as the specification words it, with [floor], fails once a margin
    exceeds the display: on a 1920x1080 display with
    [screen_margin_right = 2001] the usable width is [-81], and "50% Left"
    gets width [int(-40.5) - 30 = -70] where [floor] would give [-71]. *)
Lemma layout_bounds_floor_fails :
  ~ (forall (layout : string) (x y w h : Q) (display : Display)
            (cfg : Config) (geom : Geom),
       (layout, (x, y, w, h)) ∈ catalog_fractions ->
       LAYOUT_GEOMETRY !! layout = Some geom ->
       layout_bounds cfg display geom
       = Ret (spec_bounds_floor display cfg (x, y, w, h))).
Proof.
  intros H.
  specialize (H "50% Left"%string (0 # 1) (0 # 1) (1 # 2) (1 # 1)
                (display_of_match (1920, 1080, 0, 0))
                {| window_margin_top := 30; window_margin_left := 30;
                   screen_margin_bottom := 30; screen_margin_right := 2001;
                   notify_on_apply_layout := false |}
                (PyFloat.lit_0_0, PyFloat.lit_0_0, PyFloat.lit_0_5, PyFloat.lit_1_0)).
  assert (Ret (-70, 1020, 30, 30) = Ret (-71, 1020, 30, 30)) as Habs.
  { apply H.
    - unfold catalog_fractions. repeat constructor.
    - vm_compute. reflexivity. }
  discriminate Habs.
Qed.

(** Beyond 53 bits the conversion of the usable width to a double rounds,
    and the product is no longer the exact one: a width of [2^53 + 3]
    halves to [2^52 + 2]. *)
Lemma layout_bounds_inexact_when_huge :
  layout_bounds
    {| window_margin_top := 0; window_margin_left := 0;
       screen_margin_bottom := 0; screen_margin_right := 0;
       notify_on_apply_layout := false |}
    (display_of_match (2 ^ 53 + 3, 1080, 0, 0))
    (PyFloat.lit_0_0, PyFloat.lit_0_0, PyFloat.lit_0_5, PyFloat.lit_1_0)
  = Ret (2 ^ 52 + 2, 1080, 0, 0)
  /\ (2 ^ 53 + 3) / 2 = 2 ^ 52 + 1.
Proof. split; vm_compute; reflexivity. Qed.

End Bounds.

(** ** Applying layouts and snapping, path by path *)

Section Requests.

Local Open Scope list_scope.
Local Open Scope Z_scope.

(** [apply_fractional] on every path. *)
Lemma apply_fractional_run
    (env : Env) (cfg : Config) (layout w : string) (c : Core) :
  apply_fractional env cfg layout w c
  = match display_found env w with
    | None =>
        (Ret false,
         {| _window_state := _window_state c;
            log := log c ++ display_queries env w
                   ++ [NotifySend "Layout Error"
                         ("Display not found for window " +:+ w)] |})
    | Some display =>
        match LAYOUT_GEOMETRY !! layout with
        | None =>
            (Ret false,
             {| _window_state := _window_state c;
                log := log c ++ display_queries env w |})
        | Some geom =>
            match layout_bounds cfg display geom with
            | Raise e =>
                (Raise e,
                 {| _window_state := _window_state c;
                    log := log c ++ display_queries env w |})
            | Ret (W, H, L, T) =>
                (Ret true,
                 {| _window_state := _window_state c;
                    log := log c ++ display_queries env w
                           ++ [ WindowState w "--remove"
                                  "fullscreen,maximized_vert,maximized_horz";
                                WindowSize w W H;
                                WindowMove w L T ] |})
            end
        end
    end.
Proof.
  unfold apply_fractional.
  unfold bind at 1. rewrite get_display_for_window_run.
  destruct (display_found env w) as [display|].
  - destruct (LAYOUT_GEOMETRY !! layout) as [geom|]; [|reflexivity].
    unfold bind at 1. unfold lift at 1.
    destruct (layout_bounds cfg display geom) as [[[[W H] L] T]|e]; [|reflexivity].
    unfold _set_window_state, bind, emit, ret. cbn [_window_state log].
    rewrite <- !app_assoc. reflexivity.
  - unfold Notify_send, bind, emit, ret. cbn [_window_state log].
    rewrite <- !app_assoc. reflexivity.
Qed.

(** The events of the last statement of [apply_layout]. *)
Lemma apply_layout_run
    (env : Env) (cfg : Config) (layout w : string) (c : Core) :
  w <> ""%string ->
  apply_layout env cfg layout (Some w) c
  = let note := if notify_on_apply_layout cfg
                then [NotifySend layout ""] else [] in
    let c1 := {| _window_state := <[w := recorded_index layout]> (_window_state c);
                 log := log c ++ [SetState w (recorded_index layout)] |} in
    if decide (layout = FULL_SCREEN) then
      (Ret tt,
       {| _window_state := _window_state c1;
          log := log c1 ++ [WindowState w "--add" "fullscreen"] ++ note |})
    else if decide (layout = MAXIMIZED) then
      (Ret tt,
       {| _window_state := _window_state c1;
          log := log c1 ++ [ WindowState w "--remove" "fullscreen";
                             WindowState w "--add" "maximized_vert,maximized_horz" ]
                 ++ note |})
    else
      match apply_fractional env cfg layout w c1 with
      | (Ret true, c2) =>
          (Ret tt, {| _window_state := _window_state c2; log := log c2 ++ note |})
      | (Ret false, c2) => (Ret tt, c2)
      | (Raise e, c2) => (Raise e, c2)
      end.
Proof.
  intros Hw. unfold apply_layout.
  assert (str_truthy (Some w) = Some w) as ->
    by (apply str_truthy_Some; auto).
  cbv zeta.
  unfold bind at 1. unfold set_window_state at 1.
  destruct (decide (layout = FULL_SCREEN)) as [_|_].
  - unfold _set_window_state, Notify_send, bind, emit, ret.
    cbn [_window_state log andb].
    destruct (notify_on_apply_layout cfg); cbn [_window_state log];
      rewrite <- ?app_assoc, ?app_nil_r; reflexivity.
  - destruct (decide (layout = MAXIMIZED)) as [_|_].
    + unfold _set_window_state, Notify_send, bind, emit, ret.
      cbn [_window_state log andb].
      destruct (notify_on_apply_layout cfg); cbn [_window_state log];
        rewrite <- ?app_assoc, ?app_nil_r; reflexivity.
    + unfold bind at 1.
      destruct (apply_fractional env cfg layout w _) as [[[|]|e] c2];
        cbn [andb]; [|reflexivity|reflexivity].
      unfold Notify_send, emit, ret.
      destruct (notify_on_apply_layout cfg); [reflexivity|].
      rewrite app_nil_r. destruct c2; reflexivity.
Qed.

Lemma new_events_app (c : Core) (ws : gmap string nat) (evs : list Event) :
  new_events c {| _window_state := ws; log := log c ++ evs |} = evs.
Proof. unfold new_events. cbn [log]. apply drop_app_length. Qed.

Lemma list_index_None (x : string) (l : list string) :
  x ∉ l -> list_index x l = None.
Proof.
  intros Hx. destruct (list_index x l) as [i|] eqn:E; [|reflexivity].
  apply list_index_lookup, list_elem_of_lookup_2 in E. contradiction.
Qed.

Lemma recorded_index_read_back (layout : string) :
  layout ∈ LAYOUT_SEQUENCE ->
  LAYOUT_SEQUENCE !! recorded_index layout = Some layout.
Proof.
  intros Hin. unfold recorded_index.
  destruct (list_index_elem _ _ Hin) as [i Hi]. rewrite Hi.
  apply list_index_lookup, Hi.
Qed.

Lemma geometry_in_sequence (layout : string) :
  is_Some (LAYOUT_GEOMETRY !! layout) -> layout ∈ LAYOUT_SEQUENCE.
Proof.
  intros H. destruct (fractional_in_sequence layout H) as (_ & _ & i & Hi).
  apply list_index_lookup, list_elem_of_lookup_2 in Hi. exact Hi.
Qed.

Lemma display_queries_harmless (env : Env) (w : string) :
  List.filter is_actuation (display_queries env w) = []
  /\ Forall (fun ev => ev = GetWindowGeometry w \/ ev = Xrandr)
       (display_queries env w).
Proof.
  unfold display_queries.
  destruct (window_geometry env w) as [[l t]|];
    [destruct (display_containing _ _ _)|];
    (split; [reflexivity|repeat (constructor; [auto|]); constructor]).
Qed.

(** X1. The two special layouts never look at the displays or at the
    window's position: whatever the tools would answer, [apply_layout]
    records index 0 or 1 and issues only the window-state commands. *)
Theorem apply_layout_special
    (env : Env) (cfg : Config) (w : string) (c : Core) :
  w <> ""%string ->
  apply_layout env cfg "Full Screen" (Some w) c
  = (Ret tt,
     {| _window_state := <[w := 0%nat]> (_window_state c);
        log := log c
               ++ [SetState w 0; WindowState w "--add" "fullscreen"]
               ++ (if notify_on_apply_layout cfg
                   then [NotifySend "Full Screen" ""] else []) |})
  /\ apply_layout env cfg "Maximized" (Some w) c
     = (Ret tt,
        {| _window_state := <[w := 1%nat]> (_window_state c);
           log := log c
                  ++ [ SetState w 1;
                       WindowState w "--remove" "fullscreen";
                       WindowState w "--add" "maximized_vert,maximized_horz" ]
                  ++ (if notify_on_apply_layout cfg
                      then [NotifySend "Maximized" ""] else []) |}).
Proof.
  intros Hw. split; rewrite (apply_layout_run _ _ _ _ _ Hw); cbv zeta.
  - rewrite decide_True by reflexivity. cbn [_window_state log].
    rewrite <- !app_assoc. reflexivity.
  - rewrite decide_False by discriminate. rewrite decide_True by reflexivity.
    cbn [_window_state log]. rewrite <- !app_assoc. reflexivity.
Qed.

Lemma apply_layout_special_witness :
  log (apply_layout
         {| window_focus := "0x2e00003";
            window_geometry := fun _ => None;
            xrandr_matches := fun _ => [] |}
         default_config "Maximized" (Some "0x2e00003"%string) XlapCore_init).2
  = [ SetState "0x2e00003" 1;
      WindowState "0x2e00003" "--remove" "fullscreen";
      WindowState "0x2e00003" "--add" "maximized_vert,maximized_horz" ].
Proof.
  pose proof (proj2 (apply_layout_special
         {| window_focus := "0x2e00003";
            window_geometry := fun _ => None;
            xrandr_matches := fun _ => [] |}
         default_config "0x2e00003" XlapCore_init ltac:(discriminate))) as H.
  rewrite H. reflexivity.
Defined.

(** X2. A layout name outside [LAYOUT_SEQUENCE] is recorded as index 0, so
    the window then counts as "Full Screen", although nothing is done to
    it: no state, resize or move command and no layout notification. *)
Theorem apply_layout_unknown
    (env : Env) (cfg : Config) (layout w : string) (c : Core) :
  w <> ""%string ->
  layout ∉ LAYOUT_SEQUENCE ->
  let r := apply_layout env cfg layout (Some w) c in
  r.1 = Ret tt
  /\ _window_state r.2 = <[w := 0%nat]> (_window_state c)
  /\ current_layout (_window_state r.2) w = Ret "Full Screen"%string
  /\ log r.2 = log c ++ new_events c r.2
  /\ Forall (fun ev => is_actuation ev = false) (new_events c r.2)
  /\ NotifySend layout "" ∉ new_events c r.2.
Proof.
  intros Hw Hout r. subst r.
  assert (recorded_index layout = 0%nat) as Hidx.
  { unfold recorded_index. rewrite list_index_None by exact Hout. reflexivity. }
  assert (LAYOUT_GEOMETRY !! layout = None) as Hg.
  { destruct (LAYOUT_GEOMETRY !! layout) as [g|] eqn:E; [|reflexivity].
    exfalso. apply Hout, geometry_in_sequence. rewrite E. eauto. }
  assert (layout <> FULL_SCREEN /\ layout <> MAXIMIZED) as [Hfs Hmax].
  { split; intros ->; apply Hout; unfold LAYOUT_SEQUENCE; repeat constructor. }
  rewrite (apply_layout_run _ _ _ _ _ Hw). cbv zeta.
  rewrite (decide_False (P := layout = FULL_SCREEN)) by exact Hfs.
  rewrite (decide_False (P := layout = MAXIMIZED)) by exact Hmax.
  rewrite apply_fractional_run, Hg, Hidx. cbn [_window_state log].
  destruct (display_queries_harmless env w) as [_ Hq].
  assert (forall ev, ev = GetWindowGeometry w \/ ev = Xrandr ->
            is_actuation ev = false /\ ev <> NotifySend layout "") as Hh.
  { intros ev [-> | ->]; split; (reflexivity || discriminate). }
  destruct (display_found env w) as [d|]; cbn [fst snd _window_state log];
    rewrite <- ?app_assoc; rewrite new_events_app; cbn [app];
    (split; [reflexivity|]); (split; [reflexivity|]);
    (split; [unfold current_layout; rewrite lookup_insert_eq; reflexivity|]);
    (split; [reflexivity|]).
  - split.
    + constructor; [reflexivity|].
      eapply Forall_impl; [exact Hq|]. intros ev Hev. apply Hh, Hev.
    + rewrite elem_of_cons. intros [Habs|Hin]; [discriminate|].
      rewrite Forall_forall in Hq. destruct (Hh _ (Hq _ Hin)) as [_ Hne].
      contradiction.
  - split.
    + constructor; [reflexivity|]. apply Forall_app. split.
      * eapply Forall_impl; [exact Hq|]. intros ev Hev. apply Hh, Hev.
      * constructor; [reflexivity|constructor].
    + rewrite elem_of_cons, elem_of_app, elem_of_cons, elem_of_nil.
      intros [Habs|[Hin|[Habs|[]]]]; try discriminate.
      * rewrite Forall_forall in Hq. destruct (Hh _ (Hq _ Hin)) as [_ Hne].
        contradiction.
Qed.

Lemma apply_layout_unknown_witness :
  current_layout
    (_window_state
       (apply_layout
          {| window_focus := "0x2e00003";
             window_geometry := fun _ => Some (10, 10);
             xrandr_matches := fun _ => [(1920, 1080, 0, 0)] |}
          default_config "25% Left" (Some "0x2e00003"%string) XlapCore_init).2)
    "0x2e00003"
  = Ret "Full Screen"%string.
Proof.
  apply (apply_layout_unknown
          {| window_focus := "0x2e00003";
             window_geometry := fun _ => Some (10, 10);
             xrandr_matches := fun _ => [(1920, 1080, 0, 0)] |}
          default_config "25% Left" "0x2e00003" XlapCore_init).
  - discriminate.
  - unfold LAYOUT_SEQUENCE. rewrite !elem_of_cons, elem_of_nil.
    intros H. repeat (destruct H as [H|H]; [discriminate H|]). destruct H.
Defined.

(** X3. After [apply_layout] of a catalog layout the tracker reads that
    layout back for the window, and every other window's entry is as it
    was; this holds on every path, also when no display is found or an
    exception is raised. *)
Theorem apply_layout_read_back
    (env : Env) (cfg : Config) (layout w : string) (c : Core) :
  w <> ""%string ->
  layout ∈ LAYOUT_SEQUENCE ->
  current_layout (_window_state (apply_layout env cfg layout (Some w) c).2) w
  = Ret layout
  /\ forall w', w' <> w ->
       _window_state (apply_layout env cfg layout (Some w) c).2 !! w'
       = _window_state c !! w'.
Proof.
  intros Hw Hin. rewrite apply_layout_state by exact Hw. split.
  - unfold current_layout. rewrite lookup_insert_eq.
    rewrite recorded_index_read_back by exact Hin. reflexivity.
  - intros w' Hne. apply lookup_insert_ne. congruence.
Qed.

Lemma apply_layout_read_back_witness :
  current_layout
    (_window_state
       (apply_layout
          {| window_focus := "0x2e00003";
             window_geometry := fun _ => Some (10, 10);
             xrandr_matches := fun _ => [(2 ^ 1024, 1080, 0, 0)] |}
          default_config "66% Right" (Some "0x2e00003"%string) XlapCore_init).2)
    "0x2e00003"
  = Ret "66% Right"%string.
Proof.
  apply apply_layout_read_back.
  - discriminate.
  - unfold LAYOUT_SEQUENCE. repeat constructor.
Defined.

Lemma geometry_entry_fractions (layout : string) (geom : Geom) :
  LAYOUT_GEOMETRY !! layout = Some geom ->
  exists x y w h,
    (layout, (x, y, w, h)) ∈ catalog_fractions
    /\ geom = (float_of_fraction x, float_of_fraction y,
               float_of_fraction w, float_of_fraction h).
Proof.
  intros Hg. apply elem_of_list_to_map_2 in Hg.
  rewrite geometry_is_rounded_fractions in Hg.
  apply list_elem_of_fmap in Hg as ([name [[[x y] w] h]] & Heq & Hin).
  cbn [rounded_entry] in Heq. injection Heq as -> ->.
  exists x, y, w, h. split; [exact Hin|reflexivity].
Qed.

Lemma layout_bounds_trunc
    (layout : string) (x y w h : Q) (display : Display) (cfg : Config) :
  (layout, (x, y, w, h)) ∈ catalog_fractions ->
  Z.abs (usable_width cfg display) < 2 ^ 52 ->
  Z.abs (usable_height cfg display) < 2 ^ 52 ->
  layout_bounds cfg display
    (float_of_fraction x, float_of_fraction y,
     float_of_fraction w, float_of_fraction h)
  = Ret (trunc_bounds display cfg (x, y, w, h)).
Proof.
  intros Hin Hw Hh. unfold usable_width, usable_height in *.
  destruct (catalog_entry_fractions _ _ _ _ _ Hin) as (Fx & Fy & Fw & Fh).
  unfold layout_bounds.
  rewrite !int_of_product_fraction by assumption. reflexivity.
Qed.

(** X4. [apply_layout] returns normally, whatever the layout name and
    the window identifier, as long as the display it finds has usable
    width and height below [2^52] in absolute value: the float products
    then never overflow. *)
Theorem apply_layout_returns
    (env : Env) (cfg : Config) (layout : string) (w : option string) (c : Core) :
  (forall w' display,
     w = Some w' -> display_found env w' = Some display ->
     Z.abs (usable_width cfg display) < 2 ^ 52
     /\ Z.abs (usable_height cfg display) < 2 ^ 52) ->
  (apply_layout env cfg layout w c).1 = Ret tt.
Proof.
  intros Hsmall.
  destruct (str_truthy w) as [w'|] eqn:Ew.
  - apply str_truthy_Some in Ew as [-> Hw].
    rewrite (apply_layout_run _ _ _ _ _ Hw). cbv zeta.
    destruct (decide (layout = FULL_SCREEN)); [reflexivity|].
    destruct (decide (layout = MAXIMIZED)); [reflexivity|].
    rewrite apply_fractional_run.
    destruct (display_found env w') as [d|] eqn:Ed; [|reflexivity].
    destruct (LAYOUT_GEOMETRY !! layout) as [g|] eqn:Eg; [|reflexivity].
    destruct (geometry_entry_fractions _ _ Eg) as (x & y & fw & fh & Hin & ->).
    destruct (Hsmall w' d eq_refl Ed) as [Hw1 Hh1].
    rewrite (layout_bounds_trunc _ _ _ _ _ _ _ Hin Hw1 Hh1).
    destruct (trunc_bounds d cfg (x, y, fw, fh)) as [[[W H] L] T]. reflexivity.
  - unfold apply_layout. rewrite Ew. reflexivity.
Qed.

Lemma apply_layout_returns_witness :
  (apply_layout
     {| window_focus := "0x2e00003";
        window_geometry := fun _ => Some (2000, 10);
        xrandr_matches := fun _ => [(1920, 1080, 0, 0); (2560, 1440, 1920, 0)] |}
     default_config "33% Bottom Right" (Some "0x2e00003"%string) XlapCore_init).1
  = Ret tt.
Proof.
  apply apply_layout_returns.
  intros w' display [= <-] Hd. vm_compute in Hd. injection Hd as <-.
  split; reflexivity.
Defined.

(** Without the bound the products can overflow: on a display 2^1024
    pixels wide [apply_layout] raises [OverflowError], after the tracker
    was written and before any command to the window. *)
Lemma apply_layout_overflow :
  apply_layout
    {| window_focus := "0x2e00003";
       window_geometry := fun _ => Some (10, 10);
       xrandr_matches := fun _ => [(2 ^ 1024, 1080, 0, 0)] |}
    default_config "50% Left" (Some "0x2e00003"%string) XlapCore_init
  = (Raise OverflowError,
     {| _window_state := {[ "0x2e00003"%string := 3%nat ]};
        log := [SetState "0x2e00003" 3; GetWindowGeometry "0x2e00003"; Xrandr] |}).
Proof. vm_compute. reflexivity. Qed.

(** X5. What [apply_layout] can do to windows: it only appends to the
    log, every event about a window is about the window it was given, and
    the commands that change the window are one of four groups: none,
    "add fullscreen", "remove fullscreen, add maximized", or "remove all
    three states, resize, move"; a window is never resized without being
    moved, and never either without its states being cleared first. *)
Theorem apply_layout_actuation
    (env : Env) (cfg : Config) (layout w : string) (c : Core) :
  w <> ""%string ->
  let c' := (apply_layout env cfg layout (Some w) c).2 in
  log c' = log c ++ new_events c c'
  /\ Forall (fun ev => event_window ev = None \/ event_window ev = Some w)
       (new_events c c')
  /\ (List.filter is_actuation (new_events c c') = []
      \/ List.filter is_actuation (new_events c c')
         = [WindowState w "--add" "fullscreen"]
      \/ List.filter is_actuation (new_events c c')
         = [ WindowState w "--remove" "fullscreen";
             WindowState w "--add" "maximized_vert,maximized_horz" ]
      \/ exists W H L T,
           List.filter is_actuation (new_events c c')
           = [ WindowState w "--remove"
                 "fullscreen,maximized_vert,maximized_horz";
               WindowSize w W H; WindowMove w L T ]).
Proof.
  intros Hw c'. subst c'.
  destruct (display_queries_harmless env w) as [Hf Hq].
  assert (Forall (fun ev => event_window ev = None \/ event_window ev = Some w)
            (display_queries env w)) as Hqw.
  { eapply Forall_impl; [exact Hq|]. intros ev [-> | ->]; cbn; auto. }
  assert (forall note : list Event,
            note = (if notify_on_apply_layout cfg
                    then [NotifySend layout ""] else []) ->
            List.filter is_actuation note = []
            /\ Forall (fun ev => event_window ev = None
                                 \/ event_window ev = Some w) note) as Hnote.
  { intros note ->. destruct (notify_on_apply_layout cfg);
      (split; [reflexivity|repeat (constructor; [cbn; auto|]); constructor]). }
  destruct (Hnote _ eq_refl) as [Hnf Hnw].
  rewrite (apply_layout_run _ _ _ _ _ Hw). cbv zeta.
  destruct (decide (layout = FULL_SCREEN)).
  { cbn [snd _window_state log]. rewrite <- !app_assoc, new_events_app.
    split; [reflexivity|]. cbn [app]. split.
    - repeat (constructor; [cbn; auto|]). exact Hnw.
    - right. left. cbn [List.filter is_actuation]. rewrite Hnf. reflexivity. }
  destruct (decide (layout = MAXIMIZED)).
  { cbn [snd _window_state log]. rewrite <- !app_assoc, new_events_app.
    split; [reflexivity|]. cbn [app]. split.
    - repeat (constructor; [cbn; auto|]). exact Hnw.
    - right. right. left. cbn [List.filter is_actuation]. rewrite Hnf. reflexivity. }
  rewrite apply_fractional_run. cbn [_window_state log].
  destruct (display_found env w) as [d|].
  - destruct (LAYOUT_GEOMETRY !! layout) as [g|].
    + destruct (layout_bounds cfg d g) as [[[[W H] L] T]|e].
      * cbn [snd _window_state log]. rewrite <- !app_assoc, new_events_app.
        split; [reflexivity|]. cbn [app]. split.
        -- constructor; [cbn; auto|]. apply Forall_app. split; [exact Hqw|].
           repeat (constructor; [cbn; auto|]). exact Hnw.
        -- right. right. right. exists W, H, L, T.
           cbn [List.filter is_actuation]. rewrite List.filter_app, Hf.
           cbn [app List.filter is_actuation]. rewrite Hnf. reflexivity.
      * cbn [snd _window_state log]. rewrite <- !app_assoc, new_events_app.
        split; [reflexivity|]. cbn [app]. split.
        -- constructor; [cbn; auto|]. exact Hqw.
        -- left. cbn [List.filter is_actuation]. exact Hf.
    + cbn [snd _window_state log]. rewrite <- !app_assoc, new_events_app.
      split; [reflexivity|]. cbn [app]. split.
      * constructor; [cbn; auto|]. exact Hqw.
      * left. cbn [List.filter is_actuation]. exact Hf.
  - cbn [snd _window_state log]. rewrite <- !app_assoc, new_events_app.
    split; [reflexivity|]. cbn [app]. split.
    + constructor; [cbn; auto|]. apply Forall_app. split; [exact Hqw|].
      repeat (constructor; [cbn; auto|]). constructor.
    + left. cbn [List.filter is_actuation]. rewrite List.filter_app, Hf.
      reflexivity.
Qed.

Lemma apply_layout_actuation_witness :
  Forall (fun ev => event_window ev = None
                    \/ event_window ev = Some "0x2e00003"%string)
    (new_events XlapCore_init
       (apply_layout
          {| window_focus := "0x2e00003";
             window_geometry := fun _ => Some (2000, 10);
             xrandr_matches :=
               fun _ => [(1920, 1080, 0, 0); (2560, 1440, 1920, 0)] |}
          default_config "50% Right" (Some "0x2e00003"%string) XlapCore_init).2).
Proof.
  apply (apply_layout_actuation
          {| window_focus := "0x2e00003";
             window_geometry := fun _ => Some (2000, 10);
             xrandr_matches :=
               fun _ => [(1920, 1080, 0, 0); (2560, 1440, 1920, 0)] |}
          default_config "50% Right" "0x2e00003" XlapCore_init).
  discriminate.
Defined.

Lemma transition_unknown_direction (current direction : string) :
  direction ∉ directions -> transition current direction = None.
Proof.
  intros Hd. unfold transition.
  assert (LAYOUT_TRANSITIONS !! (current, direction) = None) as ->.
  { destruct (LAYOUT_TRANSITIONS !! (current, direction)) as [t|] eqn:E;
      [|reflexivity].
    exfalso. apply Hd. apply explicit_rule_inv in E.
    unfold LAYOUT_TRANSITIONS_items in E.
    rewrite !elem_of_cons, elem_of_nil in E. unfold directions.
    destruct E as [E|[E|[E|[E|[E|[E|[E|[E|[]]]]]]]]];
      injection E as _ -> _; repeat constructor. }
  unfold str_truthy.
  destruct (DEFAULT_TRANSITIONS !! direction) as [t|] eqn:E'; [|reflexivity].
  exfalso. apply Hd. apply default_rule_inv in E'.
  unfold DEFAULT_TRANSITIONS_items in E'.
  rewrite !elem_of_cons, elem_of_nil in E'. unfold directions.
  destruct E' as [E'|[E'|[E'|[E'|[]]]]];
    injection E' as -> _; repeat constructor.
Qed.

(** X6. [modify_layout] does nothing beyond asking for the focused
    window when no window is focused, and when the direction is not one
    of "left", "right", "up", "down": the tracker is untouched and no
    command is issued. *)
Theorem modify_layout_noop
    (env : Env) (cfg : Config) (direction : string) (c : Core) :
  (window_focus env = ""%string)
  \/ ((direction ∉ directions) /\ tracker_ok (_window_state c)) ->
  modify_layout env cfg direction c
  = (Ret tt,
     {| _window_state := _window_state c; log := log c ++ [GetWindowFocus] |}).
Proof.
  intros H. unfold modify_layout, get_active_window_id.
  unfold bind at 1. unfold bind at 1. unfold emit at 1, ret at 1.
  destruct H as [Hf | [Hd Hok]].
  - rewrite Hf. reflexivity.
  - destruct (str_truthy (Some (window_focus env))) as [w|]; [|reflexivity].
    unfold bind at 1. unfold read_window_state at 1.
    unfold bind at 1. unfold lift at 1. cbn [_window_state].
    unfold resolve.
    destruct (current_layout_total _ w Hok) as (L & -> & _).
    rewrite transition_unknown_direction by exact Hd. reflexivity.
Qed.

Lemma modify_layout_noop_witness :
  modify_layout
    {| window_focus := "0x2e00003";
       window_geometry := fun _ => Some (10, 10);
       xrandr_matches := fun _ => [(1920, 1080, 0, 0)] |}
    default_config "north" XlapCore_init
  = (Ret tt, {| _window_state := ∅; log := [] ++ [GetWindowFocus] |}).
Proof.
  apply (modify_layout_noop _ default_config "north" XlapCore_init).
  right. split.
  - unfold directions. rewrite !elem_of_cons, elem_of_nil.
    intros [H|[H|[H|[H|[]]]]]; discriminate H.
  - apply map_Forall_empty.
Defined.

(** X7. [modify_layout] in one of the four directions moves the focused
    window's recorded layout from [L] to [transition L d], whatever
    happens to the window itself, and leaves every other window's entry
    as it was. *)
Theorem modify_layout_effect
    (env : Env) (cfg : Config) (d : string) (c : Core) :
  tracker_ok (_window_state c) ->
  d ∈ directions ->
  window_focus env <> ""%string ->
  exists L t,
    current_layout (_window_state c) (window_focus env) = Ret L
    /\ transition L d = Some t
    /\ current_layout (_window_state (modify_layout env cfg d c).2)
         (window_focus env) = Ret t
    /\ forall w', w' <> window_focus env ->
         _window_state (modify_layout env cfg d c).2 !! w'
         = _window_state c !! w'.
Proof.
  intros Hok Hd Hw.
  destruct (snap_records env cfg c (window_focus env) d Hok Hd eq_refl Hw)
    as (L & t & HL & Ht & Hs & Hi).
  exists L, t. split; [exact HL|]. split; [exact Ht|]. rewrite Hs. split.
  - unfold current_layout. rewrite lookup_insert_eq.
    fold (layout_of_index (recorded_index t)). rewrite Hi. reflexivity.
  - intros w' Hne. apply lookup_insert_ne. congruence.
Qed.

Lemma modify_layout_effect_witness :
  exists L t,
    current_layout {[ "0x2e00003"%string := 10%nat; "0x4400001"%string := 8%nat ]}
      "0x2e00003" = Ret L
    /\ transition L "right" = Some t.
Proof.
  destruct (modify_layout_effect
              {| window_focus := "0x2e00003";
                 window_geometry := fun _ => Some (10, 10);
                 xrandr_matches := fun _ => [(1920, 1080, 0, 0)] |}
              default_config "right"
              {| _window_state :=
                   {[ "0x2e00003"%string := 10%nat; "0x4400001"%string := 8%nat ]};
                 log := [] |})
    as (L & t & HL & Ht & _).
  - apply (bool_decide_unpack (tracker_ok _)). vm_compute. reflexivity.
  - unfold directions. repeat constructor.
  - discriminate.
  - exists L, t. split; [exact HL|exact Ht].
Defined.

Lemma no_rule_unless_half (L d : string) :
  L ∉ [COL_50_LEFT; COL_50_RIGHT; ROW_50_TOP; ROW_50_BOTTOM] ->
  LAYOUT_TRANSITIONS !! (L, d) = None.
Proof.
  intros HL. destruct (LAYOUT_TRANSITIONS !! (L, d)) as [t|] eqn:E; [|reflexivity].
  exfalso. apply HL. apply explicit_rule_inv in E.
  unfold LAYOUT_TRANSITIONS_items in E.
  rewrite !elem_of_cons, elem_of_nil in E.
  destruct E as [E|[E|[E|[E|[E|[E|[E|[E|[]]]]]]]]];
    injection E as -> _ _; repeat constructor.
Qed.

Lemma transition_inv (L d t : string) :
  transition L d = Some t ->
  (L, d, t) ∈ LAYOUT_TRANSITIONS_items \/ (d, t) ∈ DEFAULT_TRANSITIONS_items.
Proof.
  unfold transition.
  destruct (str_truthy (LAYOUT_TRANSITIONS !! (L, d))) as [n|] eqn:E.
  - intros [= <-]. apply str_truthy_Some in E as [E _].
    left. apply explicit_rule_inv, E.
  - intros E'. right. apply default_rule_inv, E'.
Qed.

(** X8. A snap followed by a snap in the opposite direction always ends
    on the opposite half, whatever the layout it started from. *)
Theorem opposite_snap_is_default (L d : string) :
  d ∈ directions ->
  opposite d ∈ directions
  /\ exists t h,
       transition L d = Some t
       /\ DEFAULT_TRANSITIONS !! opposite d = Some h
       /\ transition t (opposite d) = Some h.
Proof.
  intros Hd.
  assert (exists t, transition L d = Some t) as [t Ht].
  { destruct (default_total d Hd) as (t0 & Ht0 & _). unfold transition.
    destruct (str_truthy (LAYOUT_TRANSITIONS !! (L, d))); eauto. }
  split.
  - unfold directions in Hd. rewrite !elem_of_cons, elem_of_nil in Hd.
    destruct Hd as [->|[->|[->|[->|[]]]]]; unfold directions; vm_compute;
      repeat constructor.
  - exists t. pose proof (transition_inv _ _ _ Ht) as [Hin|Hin].
    + unfold LAYOUT_TRANSITIONS_items in Hin.
      rewrite !elem_of_cons, elem_of_nil in Hin.
      destruct Hin as [E|[E|[E|[E|[E|[E|[E|[E|[]]]]]]]]];
        injection E as _ -> ->;
        eexists; (split; [exact Ht|]); split; vm_compute; reflexivity.
    + unfold DEFAULT_TRANSITIONS_items in Hin.
      rewrite !elem_of_cons, elem_of_nil in Hin.
      destruct Hin as [E|[E|[E|[E|[]]]]];
        injection E as -> ->;
        eexists; (split; [exact Ht|]); split; vm_compute; reflexivity.
Qed.

Lemma opposite_snap_is_default_witness :
  exists t h,
    transition "50% Top" "left" = Some t
    /\ DEFAULT_TRANSITIONS !! opposite "left" = Some h
    /\ transition t (opposite "left") = Some h.
Proof.
  apply (opposite_snap_is_default "50% Top" "left").
  unfold directions. repeat constructor.
Defined.

(** X9. From any layout other than the four halves, a horizontal and a
    vertical snap land in the corner cell named by both, in either
    order. From a half the order matters: "50% Top" snapped left then up
    is "50% Top", snapped up then left it is "50% Top Left". *)
Theorem perpendicular_snaps_commute (L h v corner : string) :
  (h, v, corner) ∈
    [ ("left", "up", "50% Top Left");
      ("left", "down", "50% Bottom Left");
      ("right", "up", "50% Top Right");
      ("right", "down", "50% Bottom Right") ]%string ->
  L ∉ [ "50% Left"; "50% Right"; "50% Top"; "50% Bottom" ]%string ->
  (transition L h ≫= fun t => transition t v) = Some corner
  /\ (transition L v ≫= fun t => transition t h) = Some corner
  /\ (transition "50% Top" "left" ≫= fun t => transition t "up")
     = Some "50% Top"%string
  /\ (transition "50% Top" "up" ≫= fun t => transition t "left")
     = Some "50% Top Left"%string.
Proof.
  intros Hc HL.
  assert (forall d, transition L d = DEFAULT_TRANSITIONS !! d) as HT.
  { intros d. unfold transition.
    rewrite (no_rule_unless_half L d HL). reflexivity. }
  rewrite !HT. rewrite !elem_of_cons, elem_of_nil in Hc.
  destruct Hc as [Hc|[Hc|[Hc|[Hc|[]]]]]; injection Hc as -> -> ->;
    repeat split; vm_compute; reflexivity.
Qed.

Lemma perpendicular_snaps_commute_witness :
  (transition "Maximized" "right" ≫= fun t => transition t "down")
  = Some "50% Bottom Right"%string
  /\ (transition "Maximized" "down" ≫= fun t => transition t "right")
     = Some "50% Bottom Right"%string.
Proof.
  destruct (perpendicular_snaps_commute
              "Maximized" "right" "down" "50% Bottom Right") as (H1 & H2 & _).
  - repeat constructor.
  - rewrite !elem_of_cons, elem_of_nil.
    intros [H|[H|[H|[H|[]]]]]; discriminate H.
  - split; [exact H1|exact H2].
Defined.

Lemma on_layout_activate_state (env : Env) (cfg : Config) (layout : string) (c : Core) :
  _window_state (_on_layout_activate env cfg layout c).2
  = match str_truthy (Some (window_focus env)) with
    | Some w => <[w := recorded_index layout]> (_window_state c)
    | None => _window_state c
    end.
Proof.
  unfold _on_layout_activate, get_active_window_id.
  unfold bind at 1. unfold bind at 1. unfold emit at 1, ret at 1.
  destruct (str_truthy (Some (window_focus env))) as [w|] eqn:Ew; [|reflexivity].
  apply str_truthy_Some in Ew as [_ Hw].
  rewrite apply_layout_state by exact Hw. reflexivity.
Qed.

Lemma run_op_tracker_ok (o : Op) (c : Core) :
  tracker_ok (_window_state c) -> tracker_ok (_window_state (run_op c o)).
Proof.
  intros Hok. destruct o as [env cfg layout|env cfg d]; cbn [run_op].
  - rewrite on_layout_activate_state.
    destruct (str_truthy _); [apply tracker_ok_insert|]; exact Hok.
  - apply modify_layout_tracker_ok, Hok.
Qed.

(** X10. After any sequence of menu layouts and snaps on a fresh core,
    with whatever the tools answered and whatever was raised on the way,
    every window has a current layout and it is one of the catalog:
    [modify_layout] can never hit an index outside [LAYOUT_SEQUENCE]. *)
Theorem run_ops_current_layout (ops : list Op) (w : string) :
  tracker_ok (_window_state (run_ops ops XlapCore_init))
  /\ exists L,
       current_layout (_window_state (run_ops ops XlapCore_init)) w = Ret L
       /\ L ∈ LAYOUT_SEQUENCE.
Proof.
  assert (forall c, tracker_ok (_window_state c) ->
            tracker_ok (_window_state (run_ops ops c))) as H.
  { induction ops as [|o ops IH]; intros c Hok; [exact Hok|].
    cbn [run_ops fold_left]. apply IH, run_op_tracker_ok, Hok. }
  specialize (H XlapCore_init tracker_ok_empty).
  split; [exact H|]. apply current_layout_total, H.
Qed.

End Requests.

(** ** Where the window is put *)

Section Placement.

Local Open Scope list_scope.
Local Open Scope Z_scope.

Lemma Qtrunc_as_div (n a : Z) (b : positive) :
  0 <= n -> 0 <= a ->
  Qtrunc (inject_Z n * (a # b)) = n * a / Z.pos b.
Proof.
  intros Hn Ha. unfold Qtrunc, Qmult, inject_Z. cbn [Qnum Qden].
  rewrite Pos.mul_1_l. apply Z.quot_div_nonneg; [apply Z.mul_nonneg_nonneg|]; lia.
Qed.

(** Truncated exact products are superadditive: pieces that fit in the
    fractions fit in the pixels. *)
Lemma trunc_sum_le (n : Z) (a b c : Q) :
  0 <= Qnum a -> 0 <= Qnum b -> 0 <= Qnum c ->
  (a + b <= c)%Q -> 0 <= n ->
  0 <= Qtrunc (inject_Z n * a)
  /\ Qtrunc (inject_Z n * a) + Qtrunc (inject_Z n * b)
     <= Qtrunc (inject_Z n * c).
Proof.
  destruct a as [a1 b1], b as [a2 b2], c as [a3 b3]. cbn [Qnum].
  intros Ha Hb Hc Hle Hn.
  rewrite !Qtrunc_as_div by assumption.
  unfold Qle, Qplus in Hle. cbn [Qnum Qden] in Hle.
  rewrite Pos2Z.inj_mul in Hle.
  set (B1 := Z.pos b1) in *. set (B2 := Z.pos b2) in *. set (B3 := Z.pos b3) in *.
  assert (0 < B1 /\ 0 < B2 /\ 0 < B3) as (HB1 & HB2 & HB3) by (unfold B1, B2, B3; lia).
  pose proof (Z.mul_div_le (n * a1) B1 HB1) as H1.
  pose proof (Z.mul_div_le (n * a2) B2 HB2) as H2.
  assert (0 <= n * a1 / B1) as Hq1
    by (apply Z.div_pos; [apply Z.mul_nonneg_nonneg|]; lia).
  assert (0 <= n * a2 / B2) as Hq2
    by (apply Z.div_pos; [apply Z.mul_nonneg_nonneg|]; lia).
  split; [exact Hq1|].
  set (q1 := n * a1 / B1) in *. set (q2 := n * a2 / B2) in *.
  apply Z.div_le_lower_bound; [exact HB3|].
  apply (Z.mul_le_mono_pos_l _ _ (B1 * B2)); [apply Z.mul_pos_pos; lia|].
  assert (B2 * B3 * (B1 * q1) <= B2 * B3 * (n * a1)) as E1
    by (apply Z.mul_le_mono_nonneg_l; [apply Z.mul_nonneg_nonneg; lia|exact H1]).
  assert (B1 * B3 * (B2 * q2) <= B1 * B3 * (n * a2)) as E2
    by (apply Z.mul_le_mono_nonneg_l; [apply Z.mul_nonneg_nonneg; lia|exact H2]).
  assert (n * ((a1 * B2 + a2 * B1) * B3) <= n * (a3 * (B1 * B2))) as E3
    by (apply Z.mul_le_mono_nonneg_l; [exact Hn|exact Hle]).
  replace (B1 * B2 * (B3 * (q1 + q2)))
    with (B2 * B3 * (B1 * q1) + B1 * B3 * (B2 * q2)) by ring.
  replace (B1 * B2 * (n * a3)) with (n * (a3 * (B1 * B2))) by ring.
  replace (n * ((a1 * B2 + a2 * B1) * B3))
    with (B2 * B3 * (n * a1) + B1 * B3 * (n * a2)) in E3 by ring.
  lia.
Qed.

Lemma catalog_fits :
  forallb (fun e : string * (Q * Q * Q * Q) =>
             let '(_, (x, y, w, h)) := e in
             (0 <=? Qnum x) && (0 <=? Qnum y) && (0 <=? Qnum w) && (0 <=? Qnum h)
             && Qle_bool (x + w) 1 && Qle_bool (y + h) 1)
    catalog_fractions = true.
Proof. vm_compute. reflexivity. Qed.

Lemma catalog_entry_fits (layout : string) (x y w h : Q) :
  (layout, (x, y, w, h)) ∈ catalog_fractions ->
  (0 <= Qnum x /\ 0 <= Qnum y /\ 0 <= Qnum w /\ 0 <= Qnum h)
  /\ (x + w <= 1)%Q /\ (y + h <= 1)%Q.
Proof.
  intros Hin. pose proof catalog_fits as H.
  rewrite forallb_forall in H. apply list_elem_of_In in Hin.
  specialize (H _ Hin). cbv beta iota in H.
  rewrite !andb_true_iff, !Z.leb_le, !Qle_bool_iff in H. tauto.
Qed.

Lemma Qtrunc_whole (n : Z) : 0 <= n -> Qtrunc (inject_Z n * 1) = n.
Proof.
  intros Hn. change 1%Q with (1 # 1)%Q. rewrite Qtrunc_as_div by lia.
  rewrite Z.mul_1_r. apply Z.div_1_r.
Qed.

(** X11. A fractional layout keeps the window on its display: for
    usable dimensions from 0 to below [2^52] the computed rectangle
    starts at least the window margins inside the display's origin and
    ends no later than the usable width and height, whatever the margins
    are. *)
Theorem layout_bounds_within_display
    (layout : string) (geom : Geom) (display : Display) (cfg : Config) :
  LAYOUT_GEOMETRY !! layout = Some geom ->
  0 <= usable_width cfg display < 2 ^ 52 ->
  0 <= usable_height cfg display < 2 ^ 52 ->
  exists W H L T,
    layout_bounds cfg display geom = Ret (W, H, L, T)
    /\ offset_left display + window_margin_left cfg <= L
    /\ L + W <= offset_left display + usable_width cfg display
    /\ offset_top display + window_margin_top cfg <= T
    /\ T + H <= offset_top display + usable_height cfg display.
Proof.
  intros Hg Hw Hh.
  destruct (geometry_entry_fractions _ _ Hg) as (x & y & w & h & Hin & ->).
  rewrite (layout_bounds_trunc _ _ _ _ _ _ _ Hin) by lia.
  destruct (catalog_entry_fits _ _ _ _ _ Hin) as ((Nx & Ny & Nw & Nh) & Fx & Fy).
  unfold trunc_bounds, exact_bounds.
  fold (usable_width cfg display). fold (usable_height cfg display).
  destruct (trunc_sum_le (usable_width cfg display) x w 1 Nx Nw ltac:(cbn; lia) Fx
              ltac:(lia)) as [Px Pxw].
  destruct (trunc_sum_le (usable_height cfg display) y h 1 Ny Nh ltac:(cbn; lia) Fy
              ltac:(lia)) as [Py Pyh].
  rewrite Qtrunc_whole in Pxw, Pyh by lia.
  eexists _, _, _, _. split; [reflexivity|]. lia.
Qed.

Lemma layout_bounds_within_display_witness :
  exists W H L T,
    layout_bounds default_config (display_of_match (2560, 1440, 1920, 0))
      (PyFloat.two_thirds, PyFloat.two_thirds, PyFloat.one_third, PyFloat.one_third)
    = Ret (W, H, L, T)
    /\ 1920 + 30 <= L /\ L + W <= 1920 + (2560 - 30).
Proof.
  destruct (layout_bounds_within_display "33% Bottom Right"
              (PyFloat.two_thirds, PyFloat.two_thirds,
               PyFloat.one_third, PyFloat.one_third)
              (display_of_match (2560, 1440, 1920, 0)) default_config)
    as (W & H & L & T & Hb & H1 & H2 & _).
  - vm_compute. reflexivity.
  - vm_compute. split; [discriminate|reflexivity].
  - vm_compute. split; [discriminate|reflexivity].
  - exists W, H, L, T. split; [exact Hb|]. split; [exact H1|exact H2].
Defined.

(** X12. Layouts that do not overlap as fractions do not overlap in
    pixels: if [A] ends, as a fraction, no later than [B] starts, then on
    the same display [B]'s rectangle starts at least one window margin
    after [A]'s ends, horizontally and likewise vertically. *)
Theorem separate_layouts_stay_apart
    (A B : string) (xa ya wa ha xb yb wb hb : Q)
    (display : Display) (cfg : Config) :
  (A, (xa, ya, wa, ha)) ∈ catalog_fractions ->
  (B, (xb, yb, wb, hb)) ∈ catalog_fractions ->
  0 <= usable_width cfg display < 2 ^ 52 ->
  0 <= usable_height cfg display < 2 ^ 52 ->
  exists ga gb Wa Ha La Ta Wb Hb Lb Tb,
    LAYOUT_GEOMETRY !! A = Some ga /\ LAYOUT_GEOMETRY !! B = Some gb
    /\ layout_bounds cfg display ga = Ret (Wa, Ha, La, Ta)
    /\ layout_bounds cfg display gb = Ret (Wb, Hb, Lb, Tb)
    /\ ((xa + wa <= xb)%Q -> La + Wa + window_margin_left cfg <= Lb)
    /\ ((ya + ha <= yb)%Q -> Ta + Ha + window_margin_top cfg <= Tb).
Proof.
  intros HA HB Hw Hh.
  pose proof (catalog_entry_geometry _ _ _ _ _ HA) as Hga.
  pose proof (catalog_entry_geometry _ _ _ _ _ HB) as Hgb.
  destruct (catalog_entry_fits _ _ _ _ _ HA) as ((Nxa & Nya & Nwa & Nha) & _).
  destruct (catalog_entry_fits _ _ _ _ _ HB) as ((Nxb & Nyb & Nwb & Nhb) & _).
  eexists _, _, _, _, _, _, _, _, _, _.
  split; [exact Hga|]. split; [exact Hgb|].
  rewrite (layout_bounds_trunc _ _ _ _ _ _ _ HA) by lia.
  rewrite (layout_bounds_trunc _ _ _ _ _ _ _ HB) by lia.
  unfold trunc_bounds, exact_bounds.
  fold (usable_width cfg display). fold (usable_height cfg display).
  split; [reflexivity|]. split; [reflexivity|]. split.
  - intros Hle.
    destruct (trunc_sum_le (usable_width cfg display) xa wa xb Nxa Nwa Nxb Hle
                ltac:(lia)) as [_ P]. lia.
  - intros Hle.
    destruct (trunc_sum_le (usable_height cfg display) ya ha yb Nya Nha Nyb Hle
                ltac:(lia)) as [_ P]. lia.
Qed.

Lemma separate_layouts_stay_apart_witness :
  exists ga gb Wa Ha La Ta Wb Hb Lb Tb,
    LAYOUT_GEOMETRY !! "33% Center"%string = Some ga
    /\ LAYOUT_GEOMETRY !! "33% Right"%string = Some gb
    /\ layout_bounds default_config (display_of_match (1921, 1080, 0, 0)) ga
       = Ret (Wa, Ha, La, Ta)
    /\ layout_bounds default_config (display_of_match (1921, 1080, 0, 0)) gb
       = Ret (Wb, Hb, Lb, Tb)
    /\ La + Wa + 30 <= Lb.
Proof.
  destruct (separate_layouts_stay_apart "33% Center" "33% Right"
              (1 # 3) (0 # 1) (1 # 3) (1 # 1) (2 # 3) (0 # 1) (1 # 3) (1 # 1)
              (display_of_match (1921, 1080, 0, 0)) default_config)
    as (ga & gb & Wa & Ha & La & Ta & Wb & Hb & Lb & Tb & H1 & H2 & H3 & H4 & H5 & _).
  - unfold catalog_fractions. repeat constructor.
  - unfold catalog_fractions. repeat constructor.
  - vm_compute. split; [discriminate|reflexivity].
  - vm_compute. split; [discriminate|reflexivity].
  - exists ga, gb, Wa, Ha, La, Ta, Wb, Hb, Lb, Tb.
    repeat (split; [assumption|]). apply H5. vm_compute. discriminate.
Defined.

Lemma display_containing_elem (ds : list Display) (px py : Z) (d : Display) :
  display_containing ds px py = Some d -> d ∈ ds /\ contains d px py = true.
Proof.
  intros H. apply display_containing_Some in H as (i & Hi & Hc & _).
  split; [eapply list_elem_of_lookup_2, Hi|exact Hc].
Qed.

Lemma rect_disjoint_contains (d1 d2 : Display) (px py : Z) :
  rect_disjoint d1 d2 ->
  contains d1 px py = true -> contains d2 px py = true -> False.
Proof.
  unfold rect_disjoint. rewrite !contains_spec. lia.
Qed.

(** X13. When the displays do not overlap, the display found for a
    point does not depend on the order in which [xrandr] lists them. *)
Theorem display_containing_order_free
    (ds ds' : list Display) (px py : Z) :
  ds ≡ₚ ds' ->
  (forall d1 d2, d1 ∈ ds -> d2 ∈ ds -> d1 = d2 \/ rect_disjoint d1 d2) ->
  display_containing ds px py = display_containing ds' px py.
Proof.
  intros Hperm Hdis.
  destruct (display_containing ds px py) as [d|] eqn:E;
    destruct (display_containing ds' px py) as [d'|] eqn:E'; [| | |reflexivity].
  - apply display_containing_elem in E as [Hin Hc].
    apply display_containing_elem in E' as [Hin' Hc'].
    rewrite <- Hperm in Hin'.
    destruct (Hdis d d' Hin Hin') as [->|Hd]; [reflexivity|].
    destruct (rect_disjoint_contains _ _ _ _ Hd Hc Hc').
  - apply display_containing_elem in E as [Hin Hc].
    rewrite Hperm in Hin.
    rewrite (proj1 (display_containing_None ds' px py) E' d Hin) in Hc.
    discriminate.
  - apply display_containing_elem in E' as [Hin' Hc'].
    rewrite <- Hperm in Hin'.
    rewrite (proj1 (display_containing_None ds px py) E d' Hin') in Hc'.
    discriminate.
Qed.

Lemma display_containing_order_free_witness :
  display_containing
    [display_of_match (1920, 1080, 0, 0); display_of_match (2560, 1440, 1920, 0)]
    2000 700
  = display_containing
      [display_of_match (2560, 1440, 1920, 0); display_of_match (1920, 1080, 0, 0)]
      2000 700.
Proof.
  apply display_containing_order_free.
  - apply perm_swap.
  - intros d1 d2. rewrite !elem_of_cons, !elem_of_nil.
    intros [->|[->|[]]] [->|[->|[]]]; auto; right; unfold rect_disjoint; cbn; lia.
Defined.

(** X14. A catalog layout is always acted upon: applied to a usable
    window identifier, a special layout, or a fractional one for which a
    display with usable dimensions below [2^52] is found, makes
    [apply_layout] return normally after issuing commands that change the
    window. Without a display a fractional layout issues none. *)
Theorem apply_layout_acts
    (env : Env) (cfg : Config) (layout w : string) (c : Core) :
  w <> ""%string ->
  layout ∈ LAYOUT_SEQUENCE ->
  let r := apply_layout env cfg layout (Some w) c in
  ((layout = FULL_SCREEN \/ layout = MAXIMIZED
    \/ (exists display,
          display_found env w = Some display
          /\ Z.abs (usable_width cfg display) < 2 ^ 52
          /\ Z.abs (usable_height cfg display) < 2 ^ 52)) ->
   r.1 = Ret tt /\ List.filter is_actuation (new_events c r.2) <> [])
  /\ (layout <> FULL_SCREEN -> layout <> MAXIMIZED ->
      display_found env w = None ->
      r.1 = Ret tt /\ List.filter is_actuation (new_events c r.2) = []).
Proof.
  intros Hw Hin r. subst r.
  destruct (display_queries_harmless env w) as [Hf _].
  rewrite (apply_layout_run _ _ _ _ _ Hw). cbv zeta.
  assert (forall note : list Event,
            note = (if notify_on_apply_layout cfg
                    then [NotifySend layout ""] else []) ->
            List.filter is_actuation note = []) as Hnote.
  { intros note ->. destruct (notify_on_apply_layout cfg); reflexivity. }
  split.
  - intros Hcase.
    destruct (decide (layout = FULL_SCREEN)) as [?|Hfs].
    { cbn [fst snd _window_state log]. rewrite <- !app_assoc, new_events_app.
      split; [reflexivity|]. cbn [app List.filter is_actuation]. discriminate. }
    destruct (decide (layout = MAXIMIZED)) as [?|Hmax].
    { cbn [fst snd _window_state log]. rewrite <- !app_assoc, new_events_app.
      split; [reflexivity|]. cbn [app List.filter is_actuation]. discriminate. }
    destruct Hcase as [?|[?|(display & Hd & Hw1 & Hh1)]]; [contradiction..|].
    assert (is_Some (LAYOUT_GEOMETRY !! layout)) as [g Hg].
    { unfold LAYOUT_SEQUENCE in Hin. rewrite !elem_of_cons, elem_of_nil in Hin.
      repeat (destruct Hin as [->|Hin];
              [first [ contradiction Hfs; reflexivity
                     | contradiction Hmax; reflexivity
                     | eexists; vm_compute; reflexivity ]|]).
      destruct Hin. }
    destruct (geometry_entry_fractions _ _ Hg) as (x & y & fw & fh & Hcat & ->).
    rewrite apply_fractional_run, Hd, Hg.
    rewrite (layout_bounds_trunc _ _ _ _ _ _ _ Hcat Hw1 Hh1).
    destruct (trunc_bounds display cfg (x, y, fw, fh)) as [[[W H] L] T].
    cbn [fst snd _window_state log]. rewrite <- !app_assoc, new_events_app.
    split; [reflexivity|].
    cbn [app List.filter is_actuation]. rewrite List.filter_app, Hf.
    cbn [app List.filter is_actuation]. discriminate.
  - intros Hfs Hmax Hd.
    rewrite (decide_False (P := layout = FULL_SCREEN)) by exact Hfs.
    rewrite (decide_False (P := layout = MAXIMIZED)) by exact Hmax.
    rewrite apply_fractional_run, Hd.
    cbn [fst snd _window_state log]. rewrite <- !app_assoc, new_events_app.
    split; [reflexivity|].
    cbn [app List.filter is_actuation]. rewrite List.filter_app, Hf. reflexivity.
Qed.

Lemma apply_layout_acts_witness :
  List.filter is_actuation
    (new_events XlapCore_init
       (apply_layout
          {| window_focus := "0x2e00003";
             window_geometry := fun _ => Some (2000, 10);
             xrandr_matches :=
               fun _ => [(1920, 1080, 0, 0); (2560, 1440, 1920, 0)] |}
          default_config "66% Top" (Some "0x2e00003"%string) XlapCore_init).2)
  <> [].
Proof.
  apply (proj1 (apply_layout_acts
          {| window_focus := "0x2e00003";
             window_geometry := fun _ => Some (2000, 10);
             xrandr_matches :=
               fun _ => [(1920, 1080, 0, 0); (2560, 1440, 1920, 0)] |}
          default_config "66% Top" "0x2e00003" XlapCore_init
          ltac:(discriminate)
          ltac:(unfold LAYOUT_SEQUENCE; repeat constructor))).
  right. right. exists (display_of_match (2560, 1440, 1920, 0)).
  split; [vm_compute; reflexivity|]. split; vm_compute; reflexivity.
Defined.

Lemma snap_target_geometry (t : string) :
  t ∈ snap_targets ->
  t <> ""%string /\ t <> FULL_SCREEN /\ t <> MAXIMIZED
  /\ is_Some (LAYOUT_GEOMETRY !! t).
Proof.
  unfold snap_targets. rewrite !elem_of_cons, elem_of_nil.
  intros [->|[->|[->|[->|[->|[->|[->|[->|[]]]]]]]]];
    (split; [discriminate|]); (split; [discriminate|]);
    (split; [discriminate|]); eexists; vm_compute; reflexivity.
Qed.

(** X15. A snap is carried through to the window: with a focused window
    on a found display of usable dimensions below [2^52], [modify_layout]
    in one of the four directions asks for the focus, records the new
    layout [t = transition L d], queries the display, and then clears the
    window's states, resizes and moves it to the bounds of [t]. *)
Theorem modify_layout_moves_window
    (env : Env) (cfg : Config) (d : string) (c : Core) (display : Display) :
  tracker_ok (_window_state c) ->
  d ∈ directions ->
  window_focus env <> ""%string ->
  display_found env (window_focus env) = Some display ->
  Z.abs (usable_width cfg display) < 2 ^ 52 ->
  Z.abs (usable_height cfg display) < 2 ^ 52 ->
  exists L t geom W H Lf T,
    current_layout (_window_state c) (window_focus env) = Ret L
    /\ transition L d = Some t
    /\ LAYOUT_GEOMETRY !! t = Some geom
    /\ layout_bounds cfg display geom = Ret (W, H, Lf, T)
    /\ modify_layout env cfg d c
       = (Ret tt,
          {| _window_state :=
               <[window_focus env := recorded_index t]> (_window_state c);
             log := log c
                    ++ [GetWindowFocus;
                        SetState (window_focus env) (recorded_index t)]
                    ++ display_queries env (window_focus env)
                    ++ [ WindowState (window_focus env) "--remove"
                           "fullscreen,maximized_vert,maximized_horz";
                         WindowSize (window_focus env) W H;
                         WindowMove (window_focus env) Lf T ]
                    ++ (if notify_on_apply_layout cfg
                        then [NotifySend t ""] else []) |}).
Proof.
  intros Hok Hd Hw Hdisp Hw1 Hh1.
  set (w := window_focus env) in *.
  destruct (current_layout_total _ w Hok) as (L & HL & _).
  assert (exists t, transition L d = Some t) as [t Ht].
  { destruct (default_total d Hd) as (t0 & Ht0 & _). unfold transition.
    destruct (str_truthy (LAYOUT_TRANSITIONS !! (L, d))); eauto. }
  destruct (snap_target_geometry t (transition_image _ _ _ Ht))
    as (Hne & Hfs & Hmax & geom & Hg).
  destruct (geometry_entry_fractions _ _ Hg) as (x & y & fw & fh & Hcat & Hgeom).
  pose proof (layout_bounds_trunc _ _ _ _ _ _ _ Hcat Hw1 Hh1) as Hb.
  rewrite <- Hgeom in Hb.
  destruct (trunc_bounds display cfg (x, y, fw, fh)) as [[[W H] Lf] T].
  exists L, t, geom, W, H, Lf, T.
  split; [exact HL|]. split; [exact Ht|]. split; [exact Hg|]. split; [exact Hb|].
  unfold modify_layout, get_active_window_id.
  unfold bind at 1. unfold bind at 1. unfold emit at 1, ret at 1.
  fold w.
  assert (str_truthy (Some w) = Some w) as -> by (apply str_truthy_Some; auto).
  unfold bind at 1. unfold read_window_state at 1.
  unfold bind at 1. unfold lift at 1. cbn [_window_state].
  unfold resolve. rewrite HL, Ht.
  assert (str_truthy (Some t) = Some t) as -> by (apply str_truthy_Some; auto).
  rewrite (apply_layout_issues_bounds env cfg t w _ display geom W H Lf T
             Hw Hfs Hmax Hdisp Hg Hb).
  cbn [_window_state log]. rewrite <- !app_assoc. reflexivity.
Qed.

Lemma modify_layout_moves_window_witness :
  exists L t geom W H Lf T,
    current_layout ∅ "0x2e00003" = Ret L
    /\ transition L "up" = Some t
    /\ LAYOUT_GEOMETRY !! t = Some geom
    /\ layout_bounds default_config (display_of_match (2560, 1440, 1920, 0)) geom
       = Ret (W, H, Lf, T).
Proof.
  destruct (modify_layout_moves_window
              {| window_focus := "0x2e00003";
                 window_geometry := fun _ => Some (2000, 10);
                 xrandr_matches :=
                   fun _ => [(1920, 1080, 0, 0); (2560, 1440, 1920, 0)] |}
              default_config "up" XlapCore_init
              (display_of_match (2560, 1440, 1920, 0)))
    as (L & t & geom & W & H & Lf & T & H1 & H2 & H3 & H4 & _).
  - apply map_Forall_empty.
  - unfold directions. repeat constructor.
  - discriminate.
  - vm_compute. reflexivity.
  - vm_compute. reflexivity.
  - vm_compute. reflexivity.
  - exists L, t, geom, W, H, Lf, T. repeat (split; [assumption|]). assumption.
Defined.

Lemma display_found_is_match (env : Env) (w : string) (d : Display) :
  display_found env w = Some d ->
  exists m, d = display_of_match m
    /\ (m ∈ xrandr_matches env 0 \/ m ∈ xrandr_matches env 1).
Proof.
  unfold display_found.
  destruct (window_geometry env w) as [[l t]|]; [|discriminate].
  destruct (display_containing _ _ _) as [d0|] eqn:E.
  - intros [= <-]. apply display_containing_elem in E as [Hin _].
    apply list_elem_of_fmap in Hin as (m & -> & Hm). eauto.
  - intros Hh. destruct (xrandr_matches env 1) as [|m ms] eqn:E1; [discriminate|].
    cbn in Hh. injection Hh as <-. exists m. split; [reflexivity|].
    right. left.
Qed.

(** X16. The window stays on the monitor it is found on: for the
    display [get_display_for_window] returns, margins that are not
    negative and usable dimensions from 0 to below [2^52], the rectangle
    computed for a fractional layout lies inside that display's
    rectangle [x_start, x_end) x [y_start, y_end). *)
Theorem window_stays_on_its_display
    (env : Env) (cfg : Config) (w layout : string) (c : Core)
    (display : Display) (geom : Geom) :
  (get_display_for_window env w c).1 = Ret (Some display) ->
  LAYOUT_GEOMETRY !! layout = Some geom ->
  0 <= window_margin_left cfg -> 0 <= window_margin_top cfg ->
  0 <= screen_margin_right cfg -> 0 <= screen_margin_bottom cfg ->
  0 <= usable_width cfg display < 2 ^ 52 ->
  0 <= usable_height cfg display < 2 ^ 52 ->
  exists W H L T,
    layout_bounds cfg display geom = Ret (W, H, L, T)
    /\ x_start display <= L /\ L + W <= x_end display
    /\ y_start display <= T /\ T + H <= y_end display.
Proof.
  intros Hd Hg Hml Hmt Hmr Hmb Hw Hh.
  rewrite get_display_for_window_run in Hd. cbn [fst] in Hd.
  injection Hd as Hd.
  destruct (display_found_is_match _ _ _ Hd) as (m & -> & _).
  destruct (geometry_entry_fractions _ _ Hg) as (x & y & fw & fh & Hin & ->).
  rewrite (layout_bounds_trunc _ _ _ _ _ _ _ Hin) by lia.
  destruct (catalog_entry_fits _ _ _ _ _ Hin) as ((Nx & Ny & Nw & Nh) & Fx & Fy).
  unfold trunc_bounds, exact_bounds.
  fold (usable_width cfg (display_of_match m)).
  fold (usable_height cfg (display_of_match m)).
  destruct (trunc_sum_le (usable_width cfg (display_of_match m)) x fw 1
              Nx Nw ltac:(cbn; lia) Fx ltac:(lia)) as [Px Pxw].
  destruct (trunc_sum_le (usable_height cfg (display_of_match m)) y fh 1
              Ny Nh ltac:(cbn; lia) Fy ltac:(lia)) as [Py Pyh].
  rewrite Qtrunc_whole in Pxw, Pyh by lia.
  eexists _, _, _, _. split; [reflexivity|].
  unfold usable_width, usable_height in *.
  destruct m as [[[mw mh] ox] oy]. cbn [display_of_match x_start x_end y_start y_end
    offset_left offset_top width height] in *. lia.
Qed.

Lemma window_stays_on_its_display_witness :
  exists W H L T,
    layout_bounds default_config (display_of_match (2560, 1440, 1920, 0))
      (PyFloat.one_third, PyFloat.lit_0_0, PyFloat.two_thirds, PyFloat.lit_1_0)
    = Ret (W, H, L, T)
    /\ 1920 <= L /\ L + W <= 1920 + 2560.
Proof.
  destruct (window_stays_on_its_display
              {| window_focus := "0x2e00003";
                 window_geometry := fun _ => Some (2000, 10);
                 xrandr_matches :=
                   fun _ => [(1920, 1080, 0, 0); (2560, 1440, 1920, 0)] |}
              default_config "0x2e00003" "66% Right" XlapCore_init
              (display_of_match (2560, 1440, 1920, 0))
              (PyFloat.one_third, PyFloat.lit_0_0,
               PyFloat.two_thirds, PyFloat.lit_1_0))
    as (W & H & L & T & Hb & H1 & H2 & _).
  - vm_compute. reflexivity.
  - vm_compute. reflexivity.
  - vm_compute. discriminate.
  - vm_compute. discriminate.
  - vm_compute. discriminate.
  - vm_compute. discriminate.
  - vm_compute. split; [discriminate|reflexivity].
  - vm_compute. split; [discriminate|reflexivity].
  - exists W, H, L, T. split; [exact Hb|]. split; [exact H1|exact H2].
Defined.

End Placement.

(** ** The tray menu and the hot keys *)

Section Menu.

Local Open Scope list_scope.
Local Open Scope Z_scope.

(** X17. The menu and the hot keys only ask for what the engine knows:
    every layout entry of the built menu names a layout of
    [LAYOUT_SEQUENCE], and activating it with a focused window makes it
    that window's current layout; every snap entry, like every hot key,
    passes one of the four directions, and activating it takes the
    window from [L] to [transition L d]; every other action has a method;
    and no entry that can be clicked is left unconnected. *)
Theorem menu_requests_are_known
    (cb : Callback) (env : Env) (cfg : Config) (c : Core) :
  cb ∈ menu_callbacks (_build_menu_items MENU_STRUCTURE) ->
  tracker_ok (_window_state c) ->
  window_focus env <> ""%string ->
  match cb with
  | OnLayoutActivate l =>
      l ∈ LAYOUT_SEQUENCE
      /\ current_layout (_window_state (run_callback env cfg cb c).2)
           (window_focus env) = Ret l
  | OnAction a =>
      a ∈ action_methods
      /\ forall d, snap_action_direction a = Some d ->
           d ∈ directions
           /\ exists L t,
                current_layout (_window_state c) (window_focus env) = Ret L
                /\ transition L d = Some t
                /\ current_layout (_window_state (run_callback env cfg cb c).2)
                     (window_focus env) = Ret t
  end
  /\ (forall k d, (k, d) ∈ hotkeys -> d ∈ directions)
  /\ List.concat (List.map widget_unconnected (_build_menu_items MENU_STRUCTURE))
     = [].
Proof.
  intros Hin Hok Hw.
  split; [|split; [|vm_compute; reflexivity]].
  - assert (forall l, l ∈ LAYOUT_SEQUENCE ->
              current_layout
                (_window_state (run_callback env cfg (OnLayoutActivate l) c).2)
                (window_focus env) = Ret l) as Hlay.
    { intros l Hl. cbn [run_callback]. rewrite on_layout_activate_state.
      assert (str_truthy (Some (window_focus env)) = Some (window_focus env)) as ->
        by (apply str_truthy_Some; auto).
      unfold current_layout. rewrite lookup_insert_eq.
      rewrite recorded_index_read_back by exact Hl. reflexivity. }
    assert (forall a d, snap_action_direction a = Some d -> d ∈ directions ->
              exists L t,
                current_layout (_window_state c) (window_focus env) = Ret L
                /\ transition L d = Some t
                /\ current_layout
                     (_window_state (run_callback env cfg (OnAction a) c).2)
                     (window_focus env) = Ret t) as Hsnap.
    { intros a d Ha Hd. cbn [run_callback]. rewrite Ha.
      destruct (snap_records env cfg c (window_focus env) d Hok Hd eq_refl Hw)
        as (L & t & HL & Ht & Hs & Hi).
      exists L, t. split; [exact HL|]. split; [exact Ht|].
      rewrite Hs. unfold current_layout. rewrite lookup_insert_eq.
      fold (layout_of_index (recorded_index t)). rewrite Hi. reflexivity. }
    apply list_elem_of_In in Hin. vm_compute in Hin.
    repeat (destruct Hin as [<-|Hin];
            [first
               [ split; [unfold LAYOUT_SEQUENCE; repeat constructor|];
                 apply Hlay; unfold LAYOUT_SEQUENCE; repeat constructor
               | split; [unfold action_methods; repeat constructor|];
                 intros d Hd; vm_compute in Hd;
                 first [ discriminate Hd
                       | injection Hd as <-;
                         split; [unfold directions; repeat constructor|];
                         eapply Hsnap; [reflexivity|unfold directions; repeat constructor] ] ]
            |]).
    destruct Hin.
  - intros k d Hkd. unfold hotkeys in Hkd. rewrite !elem_of_cons, elem_of_nil in Hkd.
    destruct Hkd as [E|[E|[E|[E|[]]]]]; injection E as _ ->;
      unfold directions; repeat constructor.
Qed.

Lemma menu_requests_are_known_witness :
  "33% Center"%string ∈ LAYOUT_SEQUENCE
  /\ current_layout
       (_window_state
          (run_callback
             {| window_focus := "0x2e00003";
                window_geometry := fun _ => None;
                xrandr_matches := fun _ => [] |}
             default_config (OnLayoutActivate "33% Center") XlapCore_init).2)
       "0x2e00003"
     = Ret "33% Center"%string.
Proof.
  apply (proj1 (menu_requests_are_known (OnLayoutActivate "33% Center")
          {| window_focus := "0x2e00003";
             window_geometry := fun _ => None;
             xrandr_matches := fun _ => [] |}
          default_config XlapCore_init
          ltac:(apply list_elem_of_In; vm_compute; tauto)
          ltac:(apply map_Forall_empty)
          ltac:(discriminate))).
Defined.

End Menu.
